(** * youtube-transcript-collector: the transcript pipeline, embedded and checked

    Shallow embedding of [src/app.py] (the web front end) and
    [src/yt_transcripts.py] (the command-line tool).

    Conventions of the embedding.
    - A Python [str] is a [string]; one [ascii] stands for one code point, so
      the character tables below ([isspace], [lower], [\d]) are Python's
      tables for the code points 0..255.  The literals of the source that
      hold Cyrillic text or pictographs are kept as the bytes of the source
      file; they are only concatenated, never inspected.
    - The file system under [/tmp] is a finite map from path to content;
      every file is readable text and can be removed.
    - The external downloader is a parameter: a function from the argument
      vector, the timeout and the files present to the triple
      (stdout, stderr, exit code) and the files present afterwards.
    - A thread pool run is given by the order in which the submitted
      futures complete. *)

From Stdlib Require Import ZArith QArith Qround Lqa Ascii String List Bool Lia Permutation Sorted.
From stdpp Require Import gmap strings list fin_maps pretty.

Import ListNotations.
Local Open Scope bool_scope.

(** ** Characters and strings, as Python's [str] methods see them *)

Module Py.

Definition code (c : ascii) : nat := nat_of_ascii c.

(** [str.isspace] on one character (code points below 256). *)
Definition isspace (c : ascii) : bool :=
  let n := code c in
  ((9 <=? n) && (n <=? 13)) || ((28 <=? n) && (n <=? 32))
  || (n =? 133) || (n =? 160).

(** [\d] of the [re] module on one character (code points below 256). *)
Definition isdigit (c : ascii) : bool :=
  let n := code c in (48 <=? n) && (n <=? 57).

(** [str.lower] on one character (code points below 256). *)
Definition lower_char (c : ascii) : ascii :=
  let n := code c in
  if ((65 <=? n) && (n <=? 90))
     || ((192 <=? n) && (n <=? 222) && negb (n =? 215))
  then ascii_of_nat (n + 32) else c.

Fixpoint lower (s : string) : string :=
  match s with
  | EmptyString => EmptyString
  | String c s' => String (lower_char c) (lower s')
  end.

(** [s.startswith(p)]. *)
Definition startswith (s p : string) : bool := String.prefix p s.

(** [needle in s]. *)
Fixpoint contains (needle s : string) : bool :=
  String.prefix needle s
  || match s with
     | EmptyString => false
     | String _ s' => contains needle s'
     end.

(** [s[:n]]. *)
Definition take (n : nat) (s : string) : string := String.substring 0 n s.

(** [s.lstrip(chars)] and [s.rstrip(chars)], the set of characters given
    as a predicate; [s.strip()] strips white space. *)
Fixpoint lstrip_by (p : ascii -> bool) (s : string) : string :=
  match s with
  | EmptyString => EmptyString
  | String c s' => if p c then lstrip_by p s' else s
  end.

Fixpoint rstrip_by (p : ascii -> bool) (s : string) : string :=
  match s with
  | EmptyString => EmptyString
  | String c s' =>
      match rstrip_by p s' with
      | EmptyString => if p c then EmptyString else String c EmptyString
      | r => String c r
      end
  end.

Definition lstrip : string -> string := lstrip_by isspace.
Definition rstrip : string -> string := rstrip_by isspace.
Definition strip (s : string) : string := rstrip (lstrip s).

(** [s.endswith(p)]. *)
Definition endswith (s p : string) : bool :=
  String.prefix (String.rev p) (String.rev s).

(** [s.split(sep)] for a one-character separator: never an empty list. *)
Fixpoint split (sep : ascii) (s : string) : list string :=
  match s with
  | EmptyString => [EmptyString]
  | String c s' =>
      if Ascii.eqb c sep then EmptyString :: split sep s'
      else match split sep s' with
           | [] => [String c EmptyString]
           | w :: ws => String c w :: ws
           end
  end.

(** [sep.join(parts)]. *)
Fixpoint join (sep : string) (parts : list string) : string :=
  match parts with
  | [] => EmptyString
  | [p] => p
  | p :: ps => p +:+ sep +:+ join sep ps
  end.

(** Truthiness of a [str]. *)
Definition nonempty (s : string) : bool :=
  match s with EmptyString => false | _ => true end.

(** [s.splitlines()]: the line boundaries among the code points below 256
    are LF, VT, FF, CR, CR LF, FS, GS, RS and NEL; no empty last line. *)
Definition is_linebreak (c : ascii) : bool :=
  let n := code c in
  ((10 <=? n) && (n <=? 13)) || ((28 <=? n) && (n <=? 30)) || (n =? 133).

Fixpoint splitlines_go (cur : string) (after_cr : bool) (s : string)
  : list string :=
  match s with
  | EmptyString => if nonempty cur then [cur] else []
  | String c s' =>
      if after_cr && (code c =? 10) then splitlines_go cur false s'
      else if is_linebreak c
           then cur :: splitlines_go EmptyString (code c =? 13) s'
           else splitlines_go (cur +:+ String c EmptyString) false s'
  end.

Definition splitlines (s : string) : list string :=
  splitlines_go EmptyString false s.

(** [str(n)] for an [int]. *)
Definition str (n : Z) : string := pretty n.

End Py.

(** ** The outcome classifier, [app.py] lines 217-254

    The source has no separate function: the classifier is the chain of
    [if ... return] statements that follows the download loop.  The chain
    reads the diagnostic text only; the exit code is not consulted. *)

Inductive outcome_kind : Type :=
  | Success | NoCaptions | Blocked | RateLimited | AuthFailure | ToolOutdated.

Definition is_blocked (stderr : string) : bool :=
  Py.contains "Sign in to confirm" stderr
  || Py.contains "captcha" (Py.lower stderr).

Definition is_rate_limited (stderr : string) : bool :=
  Py.contains "rate limit" (Py.lower stderr) || Py.contains "429" stderr.

Definition is_auth_failure (stderr : string) : bool :=
  Py.contains "cookies" (Py.lower stderr)
  && Py.contains "error" (Py.lower stderr).

Definition is_tool_outdated (stderr : string) : bool :=
  Py.contains "found 0 sig function possibilities" stderr
  || Py.contains "Signature solving failed" stderr
  || Py.contains "n challenge solving failed" stderr
  || Py.contains "Only images are available" stderr.

(** [Some k]: the chain returns early with the failure [k]; [None]: control
    reaches the subtitle search. *)
Definition classify_stderr (stderr : string) : option outcome_kind :=
  if is_blocked stderr then Some Blocked
  else if is_rate_limited stderr then Some RateLimited
  else if is_auth_failure stderr then Some AuthFailure
  else if is_tool_outdated stderr then Some ToolOutdated
  else None.

(** ** The caption cleaner, [clean_vtt_content] *)

Definition NL : ascii := "010"%char.

(** [re.sub(r'<[^>]+>', '', s)].  The pattern matches at a ['<'] exactly
    when the next character is not ['>'] and a ['>'] comes later; the match
    then runs to the first such ['>'] (the class [[^>]] also takes ['<']).
    [sub_tags] copies characters, [skip_tag] is inside a match. *)
Definition tag_opens (s : string) : bool :=
  match s with
  | EmptyString => false
  | String c s' => negb (Ascii.eqb c ">") && Py.contains ">" s'
  end.

Fixpoint sub_tags (s : string) : string :=
  match s with
  | EmptyString => EmptyString
  | String c s' =>
      if Ascii.eqb c "<" && tag_opens s' then skip_tag s'
      else String c (sub_tags s')
  end
with skip_tag (s : string) : string :=
  match s with
  | EmptyString => EmptyString
  | String c s' => if Ascii.eqb c ">" then sub_tags s' else skip_tag s'
  end.

(** Some position of [s] starts a match of [<[^>]+>]. *)
Fixpoint has_tag (s : string) : bool :=
  match s with
  | EmptyString => false
  | String c s' => (Ascii.eqb c "<" && tag_opens s') || has_tag s'
  end.

(** [re.sub(r'<\d{2}:\d{2}:\d{2}\.\d{3}>', '', s)]: a pattern of fixed
    length, one character class per position. *)
Inductive char_class : Type := Lit (c : ascii) | Digit.

Definition class_ok (k : char_class) (c : ascii) : bool :=
  match k with
  | Lit d => Ascii.eqb c d
  | Digit => Py.isdigit c
  end.

Fixpoint matches_at (p : list char_class) (s : string) : bool :=
  match p, s with
  | [], _ => true
  | _ :: _, EmptyString => false
  | k :: p', String c s' => class_ok k c && matches_at p' s'
  end.

Definition ts_pattern : list char_class :=
  [Lit "<"; Digit; Digit; Lit ":"; Digit; Digit; Lit ":"; Digit; Digit;
   Lit "."; Digit; Digit; Digit; Lit ">"]%char.

Fixpoint sub_ts_go (skip : nat) (s : string) : string :=
  match s with
  | EmptyString => EmptyString
  | String c s' =>
      match skip with
      | S k => sub_ts_go k s'
      | O =>
          if matches_at ts_pattern s
          then sub_ts_go (length ts_pattern - 1) s'
          else String c (sub_ts_go 0 s')
      end
  end.

Definition sub_ts (s : string) : string := sub_ts_go 0 s.

(** The two [continue] tests at the head of the loop body ([app.py]). *)
Definition skipped (line : string) : bool :=
  (negb (Py.nonempty (Py.strip line))
   || Py.startswith line "WEBVTT" || Py.contains "-->" line)
  || (Py.startswith line "Kind:" || Py.startswith line "Language:"
      || Py.startswith line "NOTE").

Definition clean_line (line : string) : string :=
  Py.strip (sub_ts (sub_tags line)).

(** The loop over the lines, with its two accumulators [seen] and
    [text_lines]. *)
Fixpoint clean_loop (lines : list string) (seen : gset string)
    (text_lines : list string) : list string :=
  match lines with
  | [] => text_lines
  | line :: rest =>
      if skipped line then clean_loop rest seen text_lines
      else
        let clean := clean_line line in
        if Py.nonempty clean && negb (bool_decide (clean ∈ seen))
        then clean_loop rest ({[clean]} ∪ seen) (text_lines ++ [clean])
        else clean_loop rest seen text_lines
  end.

Definition clean_vtt_content (vtt_content : string) : string :=
  Py.join " " (clean_loop (Py.split NL vtt_content) ∅ []).

(** The same function in [yt_transcripts.py]: the tests come in another
    order and the blank-line test is made twice. *)
Definition skipped_cli (line : string) : bool :=
  if negb (Py.nonempty (Py.strip line)) then true
  else if Py.startswith line "WEBVTT" then true
  else if Py.startswith line "Kind:" || Py.startswith line "Language:" then true
  else if Py.contains "-->" line then true
  else if String.eqb (Py.strip line) "" || Py.startswith line "NOTE" then true
  else false.

Fixpoint clean_loop_cli (lines : list string) (seen_lines : gset string)
    (text_lines : list string) : list string :=
  match lines with
  | [] => text_lines
  | line :: rest =>
      if skipped_cli line then clean_loop_cli rest seen_lines text_lines
      else
        let clean_line := Py.strip (sub_ts (sub_tags line)) in
        if Py.nonempty clean_line && negb (bool_decide (clean_line ∈ seen_lines))
        then clean_loop_cli rest ({[clean_line]} ∪ seen_lines)
                            (text_lines ++ [clean_line])
        else clean_loop_cli rest seen_lines text_lines
  end.

Definition clean_vtt_content_cli (vtt_content : string) : string :=
  Py.join " " (clean_loop_cli (Py.split NL vtt_content) ∅ []).

(** ** Video descriptors

    The dictionaries with the keys [id], [title], [duration], [views] and
    [url].  [duration] is a [float] (or the [int] 0): a finite float is a
    rational number and Python compares floats and ints by value, so the
    field is that rational; the floats [inf] and [nan] are outside the
    model.  [views] is an [int]. *)

Module Video.
Record t : Type := mk {
  id : string;
  title : string;
  duration : Q;
  views : Z;
  url : string
}.
End Video.
Abbreviation video := Video.t.

(** ** [list.sort(key=..., reverse=True)]

    Python's sort is stable, also under [reverse=True]: elements with equal
    keys keep their original order.  That contract fixes the result, which
    insertion from the right computes: an element moves past the elements
    with a strictly greater key and stops before the first key that is not
    greater. *)

Section SortDesc.
Context {A K : Type} (ltb : K -> K -> bool) (key : A -> K).

Fixpoint insert_desc (x : A) (l : list A) : list A :=
  match l with
  | [] => [x]
  | y :: r => if ltb (key x) (key y) then y :: insert_desc x r else x :: l
  end.

Definition sort_desc (l : list A) : list A := fold_right insert_desc [] l.

(** [x] may stand before [y] in a descending list. *)
Definition desc (x y : A) : Prop := ltb (key x) (key y) = false.
End SortDesc.

Definition Qltb (a b : Q) : bool := negb (Qle_bool b a).

(** ** The catalog filter, [filter_videos] of [yt_transcripts.py] *)

(** [if x:] on an optional [int]: [None] and [0] are false. *)
Definition truthy (x : option Z) : option Z :=
  match x with
  | Some 0%Z => None
  | _ => x
  end.

Definition filter_videos (videos : list video)
    (max_duration_min min_duration_min min_views : option Z)
    (sort_by : string) : list video :=
  let filtered := videos in
  let filtered :=
    match truthy max_duration_min with
    | Some m =>
        let max_seconds := (m * 60)%Z in
        List.filter (fun v => Qle_bool (Video.duration v) (inject_Z max_seconds))
                    filtered
    | None => filtered
    end in
  let filtered :=
    match truthy min_duration_min with
    | Some m =>
        let min_seconds := (m * 60)%Z in
        List.filter (fun v => Qle_bool (inject_Z min_seconds) (Video.duration v))
                    filtered
    | None => filtered
    end in
  let filtered :=
    match truthy min_views with
    | Some m => List.filter (fun v => (m <=? Video.views v)%Z) filtered
    | None => filtered
    end in
  if String.eqb sort_by "views" then sort_desc Z.ltb Video.views filtered
  else if String.eqb sort_by "duration" then sort_desc Qltb Video.duration filtered
  else filtered.

(** The three threshold tests on one video, each applied only when its
    threshold is truthy; minutes are turned into seconds as in the source. *)
Definition within (max_duration_min min_duration_min min_views : option Z)
    (v : video) : bool :=
  match truthy max_duration_min with
  | Some m => Qle_bool (Video.duration v) (inject_Z (m * 60))
  | None => true
  end
  && (match truthy min_duration_min with
      | Some m => Qle_bool (inject_Z (m * 60)) (Video.duration v)
      | None => true
      end
      && match truthy min_views with
         | Some m => (m <=? Video.views v)%Z
         | None => true
         end).

(** ** The catalog lister, [get_channel_videos]

    [float] and [int] are the built-in conversions of the language, kept as
    parameters: [None] stands for [ValueError]. *)

Abbreviation files := (gmap string string).
Abbreviation runner :=
  (list string -> Z -> files -> (string * string * Z) * files).

Definition watch_url (video_id : string) : string :=
  "https://www.youtube.com/watch?v=" +:+ video_id.

(** One output line of the tool for the template
    [%(id)s|%(title)s|%(duration)s|%(view_count)s]. *)
Definition listing_line (id title duration view_count : string) : string :=
  id +:+ "|" +:+ title +:+ "|" +:+ duration +:+ "|" +:+ view_count.

(** A field that may hold the sentinel [NA]. *)
Definition field_or_zero {A : Type} (zero : A) (conv : string -> option A)
    (field : string) : option A :=
  if String.eqb field "NA" then Some zero else conv field.

Section Catalog.
Variable py_float : string -> option Q.
Variable py_int : string -> option Z.
Variable yt_dlp_base_cmd : list string.
Variable run_command : runner.

(** The body of the loop over the output lines; [None] is [continue]. *)
Definition parse_line (line : string) : option video :=
  if negb (Py.nonempty line) || negb (Py.contains "|" line) then None
  else
    let parts := Py.split "|" line in
    if 4 <=? length parts then
      match parts with
      | p0 :: p1 :: p2 :: p3 :: _ =>
          match field_or_zero 0%Q py_float p2 with
          | None => None
          | Some d =>
              match field_or_zero 0%Z py_int p3 with
              | None => None
              | Some n =>
                  Some (Video.mk p0 p1 d n (watch_url p0))
              end
          end
      | _ => None
      end
    else None.

Definition parse_listing (stdout : string) : list video :=
  omap parse_line (Py.split NL (Py.strip stdout)).

Definition listing_cmd (url : string) (limit : Z) : list string :=
  yt_dlp_base_cmd
  ++ ["--cookies-from-browser"; "chrome"; "--flat-playlist";
      "--print"; "%(id)s|%(title)s|%(duration)s|%(view_count)s";
      url; "--playlist-end"; Py.str limit]%string.

(** [yt_transcripts.py]; the [print] calls are left out. *)
Definition get_channel_videos_cli (url : string) (limit : Z) (fs : files)
  : list video :=
  let url :=
    if negb (Py.endswith url "/videos") then
      if Py.endswith url "/" then url +:+ "videos" else url +:+ "/videos"
    else url in
  let '((stdout, stderr, code), _) :=
    run_command (listing_cmd url (limit * 2)) 120 fs in
  if negb (code =? 0)%Z then []
  else parse_listing stdout.

(** [app.py]. *)
Definition get_channel_videos (url : string) (limit : Z) (sort_by : string)
    (fs : files) : list video :=
  let url :=
    if negb (Py.endswith url "/videos")
    then Py.rstrip_by (Ascii.eqb "/") url +:+ "/videos" else url in
  let url :=
    if String.eqb sort_by "views"
    then hd EmptyString (Py.split "?" url) +:+ "?sort=p" else url in
  let '((stdout, stderr, code), _) :=
    run_command (listing_cmd url limit) 60 fs in
  if negb (code =? 0)%Z then []
  else
    let videos := parse_listing stdout in
    if String.eqb sort_by "views"
    then sort_desc Z.ltb Video.views videos else videos.
End Catalog.

(** ** The single-video fetch, [get_video_transcript]

    Temporary files live under [/tmp/yt_transcript_{video_id}].  The glob
    [yt_transcript_{video_id}*] of the clean-up selects the entries of
    [/tmp] whose name starts with that text (video ids are tokens over
    letters, digits, [_] and [-], which the glob reads literally). *)

Definition temp_file (video_id : string) : string :=
  "/tmp/yt_transcript_" +:+ video_id.

Definition glob_match (video_id path : string) : bool :=
  Py.startswith path (temp_file video_id)
  && negb (Py.contains "/"
             (String.substring (String.length "/tmp/") (String.length path) path)).

(** [for f in Path('/tmp').glob(...): f.unlink()]. *)
Definition cleanup (video_id : string) (fs : files) : files :=
  filter (fun kv => glob_match video_id kv.1 = false) fs.

(** A progress event: a dictionary from [str] to [str], keys in the order
    of the literal. *)
Definition event : Type := list (string * string).

Definition msg_get (key default : string) (e : event) : string :=
  match List.find (fun kv => String.eqb (fst kv) key) e with
  | Some kv => snd kv
  | None => default
  end.

(** The returned tuple [(video_id, transcript, error, info)]; [info] is
    [{}] or [{'elapsed': elapsed}].  [f_kind] is not in the source: it names
    the [return] statement that produced the tuple. *)
Record fetched : Type := mk_fetched {
  f_video_id : string;
  f_transcript : string;
  f_error : string;
  f_info : option Q;
  f_kind : outcome_kind
}.

Section Fetch.
Variable yt_dlp_base_cmd : list string.
Variable run_command : runner.
(** [time.time() - start_time], read after the download loop, and the
    format [{x:.1f}]. *)
Variable elapsed : Q.
Variable fmt_1f : Q -> string.

Definition debug_message (label video_id stderr : string) : string :=
  if 200 <? String.length stderr
  then label +:+ video_id +:+ ": " +:+ Py.take 200 stderr +:+ "..."
  else label +:+ video_id +:+ ": " +:+ stderr.

Definition lang_cmd (url : string) : list string :=
  yt_dlp_base_cmd
  ++ ["--cookies-from-browser"; "chrome"; "--quiet"; "--no-warnings";
      "--skip-download"; "--print"; "%(language)s"; url]%string.

Definition subs_cmd (sub_lang temp_file url : string) : list string :=
  yt_dlp_base_cmd
  ++ ["--cookies-from-browser"; "chrome"; "--write-subs"; "--write-auto-subs";
      "--sub-lang"; sub_lang; "--sub-format"; "vtt"; "--skip-download";
      "--no-warnings"; "-o"; temp_file; url]%string.

(** The first line of the detection output that is not blank, stripped. *)
Fixpoint first_line (lines : list string) : string :=
  match lines with
  | [] => EmptyString
  | line :: rest =>
      let line := Py.strip line in
      if Py.nonempty line then line else first_line rest
  end.

(** [for l in [lang, "en", "ru"]: if l and l not in preferred_langs: ...]. *)
Fixpoint add_langs (ls preferred_langs : list string) : list string :=
  match ls with
  | [] => preferred_langs
  | l :: rest =>
      if Py.nonempty l && negb (bool_decide (l ∈ preferred_langs))
      then add_langs rest (preferred_langs ++ [l])
      else add_langs rest preferred_langs
  end.

(** The download loop: one run per language, [break] at exit code 0. *)
Fixpoint download_loop (temp_file url : string) (langs : list string)
    (last : string * string * Z) (fs : files)
  : (string * string * Z) * files :=
  match langs with
  | [] => (last, fs)
  | sub_lang :: rest =>
      let '((stdout, stderr, code), fs') :=
        run_command (subs_cmd sub_lang temp_file url) 60 fs in
      if (code =? 0)%Z then ((stdout, stderr, code), fs')
      else download_loop temp_file url rest (stdout, stderr, code) fs'
  end.

(** The candidate suffixes, in the order of the two nested loops. *)
Definition app_candidates : list string :=
  flat_map (fun lang => ["." +:+ lang +:+ ".vtt"; ".vtt"]%string)
           ["ru"; "en"]%string.

(** The subtitle search: the first existing candidate whose cleaned text
    is not empty; every candidate that was read is removed.  The files are
    readable text, so the handler [except Exception: pass] around the read
    is never entered. *)
Fixpoint search_subs (temp_file : string) (exts : list string) (fs : files)
  : option (string * string) * files :=
  match exts with
  | [] => (None, fs)
  | ext :: rest =>
      let vtt_path := temp_file +:+ ext in
      match fs !! vtt_path with
      | Some content =>
          let fs' := delete vtt_path fs in
          let transcript := clean_vtt_content content in
          if Py.nonempty transcript then (Some (vtt_path, transcript), fs')
          else search_subs temp_file rest fs'
      | None => search_subs temp_file rest fs
      end
  end.

(** The result of the last run of the download loop of [app.py] and the
    files at that point: the first part of [get_video_transcript] below
    without its events, for the statements about the classifier. *)
Definition download_phase (video_id : string) (fs : files)
  : (string * string * Z) * files :=
  let url := watch_url video_id in
  let '((lang_stdout, lang_stderr, _), fs) :=
    run_command (lang_cmd url) 45 fs in
  let lang := first_line (Py.splitlines lang_stdout) in
  download_loop (temp_file video_id) url
                (add_langs [lang; "en"; "ru"]%string [])
                (EmptyString, EmptyString, 1%Z) fs.

(** [app.py]: the result, the files left behind and the events put on the
    progress queue, oldest first. *)
Definition get_video_transcript (video_id title : string) (fs : files)
  : fetched * files * list event :=
  let url := watch_url video_id in
  let temp_file := temp_file video_id in
  let queue : list event :=
    [[("type", "status"); ("video_id", video_id); ("title", Py.take 40 title);
      ("status", "downloading");
      ("message", "⏳ Скачиваю: " +:+ Py.take 40 title +:+ "...")]]%string in
  let lang := EmptyString in
  let '((lang_stdout, lang_stderr, _), fs) :=
    run_command (lang_cmd url) 45 fs in
  let queue :=
    if Py.nonempty lang_stderr
    then queue ++ [[("type", "debug"); ("video_id", video_id);
                    ("message", debug_message "🔍 yt-dlp lang stderr для "
                                  video_id lang_stderr)]]%string
    else queue in
  let lang := first_line (Py.splitlines lang_stdout) in
  let preferred_langs := add_langs [lang; "en"; "ru"]%string [] in
  let '((stdout, stderr, code), fs) :=
    download_loop temp_file url preferred_langs
                  (EmptyString, EmptyString, 1%Z) fs in
  let queue :=
    if Py.nonempty stderr
    then queue ++ [[("type", "debug"); ("video_id", video_id);
                    ("message", debug_message "🔍 yt-dlp stderr для "
                                  video_id stderr)]]%string
    else queue in
  if Py.contains "Sign in to confirm" stderr
     || Py.contains "captcha" (Py.lower stderr)
  then
    (mk_fetched video_id ""
       ("YouTube требует CAPTCHA. stderr: " +:+ Py.take 150 stderr) None Blocked,
     fs,
     queue ++ [[("type", "error"); ("video_id", video_id);
                ("message", "❌ YouTube требует CAPTCHA для "
                            +:+ Py.take 30 title +:+ "...")]]%string)
  else if Py.contains "rate limit" (Py.lower stderr) || Py.contains "429" stderr
  then
    (mk_fetched video_id "" ("Rate limit. stderr: " +:+ Py.take 150 stderr)
       None RateLimited,
     fs,
     queue ++ [[("type", "error"); ("video_id", video_id);
                ("message", "⚠️ Rate limit от YouTube")]]%string)
  else if Py.contains "cookies" (Py.lower stderr)
          && Py.contains "error" (Py.lower stderr)
  then
    (mk_fetched video_id "" ("Ошибка cookies: " +:+ Py.take 150 stderr)
       None AuthFailure,
     fs,
     queue ++ [[("type", "error"); ("video_id", video_id);
                ("message", "❌ Проблема с cookies Chrome")]]%string)
  else if Py.contains "found 0 sig function possibilities" stderr
          || Py.contains "Signature solving failed" stderr
          || Py.contains "n challenge solving failed" stderr
          || Py.contains "Only images are available" stderr
  then
    (mk_fetched video_id ""
       ("yt-dlp JS challenge (EJS) failed. Обновите yt-dlp. stderr: "
        +:+ Py.take 150 stderr) None ToolOutdated,
     fs,
     queue ++ [[("type", "error"); ("video_id", video_id);
                ("message",
                 "❌ yt-dlp не смог решить JS challenge (обновите yt-dlp)")]]%string)
  else
    match search_subs temp_file app_candidates fs with
    | (Some (_, transcript), fs) =>
        (mk_fetched video_id transcript "" (Some elapsed) Success,
         fs,
         queue ++ [[("type", "success"); ("video_id", video_id);
                    ("message", "✅ Готово: " +:+ Py.take 35 title +:+ "... ("
                                +:+ fmt_1f elapsed +:+ "с)")]]%string)
    | (None, fs) =>
        let fs := cleanup video_id fs in
        let error_msg := "Субтитры не найдены"%string in
        let error_msg :=
          if Py.nonempty stderr
          then error_msg +:+ " | stderr: " +:+ Py.take 100 stderr
          else error_msg in
        (mk_fetched video_id "" error_msg None NoCaptions,
         fs,
         queue ++ [[("type", "warning"); ("video_id", video_id);
                    ("message", "⚠️ Нет субтитров: " +:+ Py.take 35 title
                                +:+ "...")]]%string)
    end.

(** [yt_transcripts.py]: one run of the tool for both languages; the
    language of the video is read from the [.info.json] file.
    [info_language content] is the value of [info.get("language") or ""]
    for the JSON text [content], and [""] when the [try] block raises. *)
Variable info_language : string -> string.

Definition cli_cmd (temp_file url : string) : list string :=
  yt_dlp_base_cmd
  ++ ["--cookies-from-browser"; "chrome"; "--write-info-json";
      "--write-subs"; "--write-auto-subs"; "--sub-lang"; "ru,en";
      "--sub-format"; "vtt"; "--skip-download"; "--no-warnings";
      "--no-progress"; "-o"; temp_file; url]%string.

Definition preferred_files (lang : string) : list string :=
  (if Py.nonempty lang then ["." +:+ lang +:+ ".vtt"] else [])
  ++ [".en.vtt"; ".ru.vtt"; ".vtt"]%string.

(** The loop over [preferred_files]: the first existing path. *)
Fixpoint locate (temp_file : string) (exts : list string) (fs : files)
  : option string :=
  match exts with
  | [] => None
  | ext :: rest =>
      let vtt_path := temp_file +:+ ext in
      if bool_decide (is_Some (fs !! vtt_path)) then Some vtt_path
      else locate temp_file rest fs
  end.

Definition get_video_transcript_cli (video_id title : string) (fs : files)
  : (string * string) * files :=
  let url := watch_url video_id in
  let temp_file := temp_file video_id in
  let '((stdout, stderr, code), fs) := run_command (cli_cmd temp_file url) 90 fs in
  let info_json_path := temp_file +:+ ".info.json" in
  let '(lang, fs) :=
    match fs !! info_json_path with
    | Some content => (Py.strip (info_language content), delete info_json_path fs)
    | None => (EmptyString, fs)
    end in
  match locate temp_file (preferred_files lang) fs with
  | Some vtt_path =>
      ((video_id, clean_vtt_content_cli (default EmptyString (fs !! vtt_path))),
       delete vtt_path fs)
  | None => ((video_id, EmptyString), cleanup video_id fs)
  end.
End Fetch.

(** ** The batch orchestrator

    [executor.submit] creates one future per submitted video, in the order
    of the list; [as_completed] hands every future over exactly once, in the
    order in which the workers finish.  A run of the pool is therefore
    described by what each future yields and by the completion order, a
    list of indices into the submitted list. *)

Inductive future_outcome (R : Type) : Type :=
  | Returned (r : R)          (* [future.result()] returns [r] *)
  | Raised (msg : string).    (* [future.result()] raises [e], [str(e) = msg] *)
Arguments Returned {R} r.
Arguments Raised {R} msg.

Record pool_run (R : Type) : Type := mk_run {
  outcome_of : nat -> future_outcome R;
  (** the events found on the progress queue when the future is handled *)
  drained_at : nat -> list event;
  completion_order : list nat
}.
Arguments mk_run {R} outcome_of drained_at completion_order.
Arguments outcome_of {R} p.
Arguments drained_at {R} p.
Arguments completion_order {R} p.

(** Every submitted future completes exactly once. *)
Definition complete_run {R : Type} (n : nat) (run : pool_run R) : Prop :=
  Permutation (completion_order run) (seq 0 n).

(** One entry of [results]. *)
Record result_entry : Type := mk_entry {
  r_title : string;
  r_url : string;
  r_views : Z;
  r_transcript : string
}.

Record batch_state : Type := mk_state {
  results : list result_entry;
  errors : list string;
  log_messages : list string;
  completed : nat
}.

Definition error_line (v : video) (error : string) : string :=
  Py.take 40 (Video.title v) +:+ ": " +:+ error.

Definition entry_of (v : video) (transcript : string) : result_entry :=
  mk_entry (Video.title v) (Video.url v) (Video.views v) transcript.

(** The body of [for future in as_completed(futures)] in [app.py]. *)
Definition handle_future (v : video) (out : future_outcome fetched)
    (drained : list event) (st : batch_state) : batch_state :=
  let completed := S (completed st) in
  match out with
  | Returned r =>
      let log_messages :=
        log_messages st ++ map (msg_get "message" "") drained in
      if Py.nonempty (f_transcript r)
      then mk_state (results st ++ [entry_of v (f_transcript r)])
                    (errors st) log_messages completed
      else mk_state (results st) (errors st ++ [error_line v (f_error r)])
                    log_messages completed
  | Raised msg =>
      mk_state (results st) (errors st ++ [error_line v msg])
               (log_messages st) completed
  end.

Fixpoint batch_loop (videos : list video) (run : pool_run fetched)
    (order : list nat) (st : batch_state) : batch_state :=
  match order with
  | [] => st
  | i :: rest =>
      match videos !! i with
      | Some v =>
          batch_loop videos run rest
            (handle_future v (outcome_of run i) (drained_at run i) st)
      | None => batch_loop videos run rest st
      end
  end.

(** What the future with index [i] adds to [results], respectively to
    [errors], when it is handled. *)
Definition success_entry (videos : list video) (run : pool_run fetched)
    (i : nat) : option result_entry :=
  match videos !! i, outcome_of run i with
  | Some v, Returned r =>
      if Py.nonempty (f_transcript r) then Some (entry_of v (f_transcript r))
      else None
  | _, _ => None
  end.

Definition failure_line (videos : list video) (run : pool_run fetched)
    (i : nat) : option string :=
  match videos !! i, outcome_of run i with
  | Some v, Returned r =>
      if Py.nonempty (f_transcript r) then None
      else Some (error_line v (f_error r))
  | Some v, Raised msg => Some (error_line v msg)
  | None, _ => None
  end.

Fixpoint repeat_str (s : string) (n : nat) : string :=
  match n with
  | O => EmptyString
  | S k => s +:+ repeat_str s k
  end.

(** [enumerate(l, 1)]. *)
Definition enumerate1 {A : Type} (l : list A) : list (nat * A) :=
  combine (seq 1 (length l)) l.

Record channel_info : Type := mk_channel { ch_name : string; ch_handle : string }.

(** The answers of the route: the two error answers (status 400) and the
    report.  The fields [total_chars] and [elapsed] of the report are left
    out. *)
Inductive response : Type :=
  | NoVideos
  | NoTranscripts (log : list string) (details : list string)
  | Report (count total : nat) (errors : list string) (log : list string)
           (text : string).

Section Batch.
(** The clock readings and the number format, as the route sees them. *)
Variable start_hms : string.       (* [strftime('%H:%M:%S')] at the start *)
Variable elapsed_total_1f : string. (* [f"{elapsed_total:.1f}"] *)
Variable now_stamp : string.       (* [strftime('%d.%m.%Y %H:%M')] *)
Variable fmt_1f : Q -> string.

Definition format_views (views : Z) : string :=
  if (1000000 <=? views)%Z then fmt_1f (inject_Z views / 1000000) +:+ "M"
  else if (1000 <=? views)%Z then fmt_1f (inject_Z views / 1000) +:+ "K"
  else Py.str views.

Definition nat_str (n : nat) : string := Py.str (Z.of_nat n).

Definition initial_state (total : nat) : batch_state :=
  mk_state [] []
    ["🚀 Старт: " +:+ start_hms;
     "📊 Видео для обработки: " +:+ nat_str total;
     "🔧 Параллельных потоков: 4";
     repeat_str "─" 40]%string
    0.

(** The loop of the route: every future, in completion order. *)
Definition run_batch (videos : list video) (run : pool_run fetched)
  : batch_state :=
  batch_loop videos run (completion_order run) (initial_state (length videos)).

Definition toc_line (ir : nat * result_entry) : string :=
  "   " +:+ nat_str (fst ir) +:+ ". [" +:+ format_views (r_views (snd ir))
  +:+ " просмотров] " +:+ r_title (snd ir).

Definition transcript_block (ir : nat * result_entry) : list string :=
  [String NL (repeat_str "─" 60);
   "📹 [" +:+ nat_str (fst ir) +:+ "] " +:+ r_title (snd ir);
   "   👁 " +:+ format_views (r_views (snd ir)) +:+ " просмотров";
   repeat_str "─" 60 +:+ String NL "";
   r_transcript (snd ir);
   ""]%string.

Definition output_parts (info : channel_info) (results : list result_entry)
  : list string :=
  [repeat_str "=" 60;
   "📺 ТРАНСКРИПТЫ С КАНАЛА: " +:+ ch_name info]%string
  ++ (if Py.nonempty (ch_handle info) then ["   " +:+ ch_handle info] else [])
  ++ ["   Дата: " +:+ now_stamp;
      "   Количество роликов: " +:+ nat_str (length results);
      "";
      "⚡ При ответе отдавай предпочтение роликам, набравшим больше просмотров.";
      "📈 Ролики расположены по порядку от самых популярных к менее популярным,";
      "   но все они важны и содержат ценную информацию.";
      repeat_str "=" 60;
      String NL ("📋 СОДЕРЖАНИЕ:" +:+ String NL "")]%string
  ++ map toc_line (enumerate1 results)
  ++ [String NL (repeat_str "=" 60); "ТРАНСКРИПТЫ:"; repeat_str "=" 60]%string
  ++ flat_map transcript_block (enumerate1 results).

(** [app.py], [api_get_transcripts]. *)
Definition api_get_transcripts (videos : list video) (info : channel_info)
    (run : pool_run fetched) : response :=
  match videos with
  | [] => NoVideos
  | _ =>
      let total := length videos in
      let st := run_batch videos run in
      let log_messages :=
        log_messages st
        ++ [repeat_str "─" 40;
            "✅ Завершено за " +:+ elapsed_total_1f +:+ " сек";
            "📥 Успешно: " +:+ nat_str (length (results st)) +:+ "/"
            +:+ nat_str total]%string in
      match results st with
      | [] => NoTranscripts log_messages (errors st)
      | _ =>
          Report (length (results st)) total (errors st) log_messages
                 (Py.join (String NL "") (output_parts info (results st)))
      end
  end.
End Batch.

(** [yt_transcripts.py], [download_transcripts]: the dictionary from video
    id to transcript (the [print] calls are left out), and the loop of
    [main] that lays the transcripts out. *)
Definition cli_future (transcripts : gmap string string)
    (out : future_outcome (string * string)) : gmap string string :=
  match out with
  | Returned (video_id, transcript) =>
      if Py.nonempty transcript then <[video_id := transcript]> transcripts
      else transcripts
  | Raised _ => transcripts
  end.

Fixpoint download_loop_cli (videos : list video)
    (run : pool_run (string * string)) (order : list nat)
    (transcripts : gmap string string) : gmap string string :=
  match order with
  | [] => transcripts
  | i :: rest =>
      match videos !! i with
      | Some _ =>
          download_loop_cli videos run rest
            (cli_future transcripts (outcome_of run i))
      | None => download_loop_cli videos run rest transcripts
      end
  end.

Definition download_transcripts (videos : list video)
    (run : pool_run (string * string)) : gmap string string :=
  download_loop_cli videos run (completion_order run) ∅.

(** The loop of [main] that lays the transcripts out, in the order of
    [videos]. *)
Definition main_output_parts (videos : list video)
    (transcripts : gmap string string) : list string :=
  flat_map
    (fun v =>
       match transcripts !! Video.id v with
       | Some transcript =>
           [String NL (repeat_str "=" 60);
            "📹 " +:+ Video.title v;
            "🔗 " +:+ Video.url v;
            repeat_str "=" 60 +:+ String NL "";
            transcript;
            String NL ""]%string
       | None => []
       end)
    videos.

(** ** URL recognition: [is_channel_url] and the video id pattern

    [re.search] tries the positions of the text from left to right and
    returns the first match. *)

(** [\w] of the [re] module on one character (code points below 256):
    letters, digits of every kind and the underscore. *)
Definition is_word (c : ascii) : bool :=
  let n := Py.code c in
  ((48 <=? n) && (n <=? 57)) || ((65 <=? n) && (n <=? 90))
  || ((97 <=? n) && (n <=? 122)) || (n =? 95)
  || (n =? 170) || (n =? 178) || (n =? 179) || (n =? 181)
  || (n =? 185) || (n =? 186) || ((188 <=? n) && (n <=? 190))
  || ((192 <=? n) && (n <=? 214)) || ((216 <=? n) && (n <=? 246))
  || (248 <=? n).

(** The class [[\w-]]. *)
Definition is_handle_char (c : ascii) : bool := is_word c || Ascii.eqb c "-".

(** The class [[a-zA-Z0-9_-]]. *)
Definition is_id_char (c : ascii) : bool :=
  let n := Py.code c in
  ((97 <=? n) && (n <=? 122)) || ((65 <=? n) && (n <=? 90))
  || ((48 <=? n) && (n <=? 57)) || (n =? 95) || (n =? 45).

(** [s[n:]]. *)
Definition str_drop (n : nat) (s : string) : string :=
  String.substring n (String.length s) s.

(** The longest prefix of [s] made of characters of a class. *)
Fixpoint take_while (p : ascii -> bool) (s : string) : string :=
  match s with
  | EmptyString => EmptyString
  | String c s' => if p c then String c (take_while p s') else EmptyString
  end.

Fixpoint all_chars (p : ascii -> bool) (s : string) : bool :=
  match s with
  | EmptyString => true
  | String c s' => p c && all_chars p s'
  end.

(** A match of [youtube\.com/@([\w-]+)] that starts at the head of [s]: the
    group, which is greedy. *)
Definition handle_at (s : string) : option string :=
  if Py.startswith s "youtube.com/@" then
    let group := take_while is_handle_char (str_drop 13 s) in
    if Py.nonempty group then Some group else None
  else None.

(** [re.search(r'youtube\.com/@([\w-]+)', url)]: the group of the first
    match. *)
Fixpoint search_handle (url : string) : option string :=
  match handle_at url with
  | Some group => Some group
  | None =>
      match url with
      | EmptyString => None
      | String _ rest => search_handle rest
      end
  end.

(** The four patterns of both files; the last three are plain texts. *)
Definition is_channel_url (url : string) : bool :=
  bool_decide (is_Some (search_handle url))
  || Py.contains "youtube.com/channel/" url
  || Py.contains "youtube.com/c/" url
  || Py.contains "youtube.com/user/" url.

(** A match of [(?:v=|youtu\.be/)([a-zA-Z0-9_-]{11})] that starts at the head
    of [s]: the group. *)
Definition video_id_at (s : string) : option string :=
  let after :=
    if Py.startswith s "v=" then Some (str_drop 2 s)
    else if Py.startswith s "youtu.be/" then Some (str_drop 9 s)
    else None in
  match after with
  | Some rest =>
      let group := Py.take 11 rest in
      if (String.length group =? 11) && all_chars is_id_char group
      then Some group else None
  | None => None
  end.

(** [re.search(r'(?:v=|youtu\.be/)([a-zA-Z0-9_-]{11})', url)]: the group of
    the first match. *)
Fixpoint search_video_id (url : string) : option string :=
  match video_id_at url with
  | Some group => Some group
  | None =>
      match url with
      | EmptyString => None
      | String _ rest => search_video_id rest
      end
  end.

(** ** The routes [/api/get_videos] and [/api/check_version], and
    [get_channel_info], of [app.py] *)

(** The answers of [/api/get_videos]: an error (status 400) or the
    dictionary with [is_single], [channel_info] and [videos]. *)
Inductive videos_response : Type :=
  | VideosError (error : string)
  | VideosFound (is_single : bool) (info : channel_info) (videos : list video).

(** The answers of [/api/check_version].  The [except] branch of the route
    is left out: nothing in its [try] block raises, since [run_command]
    catches every exception. *)
Inductive version_response : Type :=
  | VersionWarning (current required message : string)
  | VersionCurrent (current : string).

Definition MIN_VERSION : string := "2026.2.4".

Section Routes.
Variable py_float : string -> option Q.
Variable py_int : string -> option Z.
Variable yt_dlp_base_cmd : list string.
Variable run_command : runner.

Definition get_channel_info (url : string) (fs : files)
  : channel_info * files :=
  let cmd :=
    yt_dlp_base_cmd
    ++ ["--cookies-from-browser"; "chrome"; "--print"; "%(channel)s";
        "--playlist-end"; "1";
        if negb (Py.endswith url "/videos") then url +:+ "/videos" else url
       ]%string in
  let '((stdout, stderr, code), fs) := run_command cmd 30 fs in
  let channel_name :=
    if Py.nonempty (Py.strip stdout)
    then hd EmptyString (Py.split NL (Py.strip stdout))
    else "Unknown Channel"%string in
  let handle :=
    match search_handle url with
    | Some group => "@" +:+ group
    | None => EmptyString
    end in
  (mk_channel channel_name handle, fs).

(** [url] and [sort_by] are the entries of the request, already read with
    their defaults. *)
Definition api_get_videos (url sort_by : string) (fs : files)
  : videos_response :=
  let url := Py.strip url in
  if negb (Py.nonempty url) then VideosError "URL не указан"
  else if negb (is_channel_url url) then
    match search_video_id url with
    | Some group =>
        VideosFound true (mk_channel "Single Video" "")
                    [Video.mk group "Видео" 0 0 url]
    | None => VideosError "Неверный URL"
    end
  else
    let '(channel_info, fs) := get_channel_info url fs in
    let videos :=
      get_channel_videos py_float py_int yt_dlp_base_cmd run_command
                         url 100 sort_by fs in
    match videos with
    | [] => VideosError "Не удалось получить видео"
    | _ => VideosFound false channel_info videos
    end.

(** [version < MIN_VERSION] compares two [str]: by code point, position by
    position. *)
Definition api_check_version (fs : files) : version_response :=
  let '((stdout, stderr, code), _) :=
    run_command (yt_dlp_base_cmd ++ ["--version"%string]) 10 fs in
  let version := Py.strip stdout in
  if Py.nonempty version && String.ltb version MIN_VERSION
  then VersionWarning version MIN_VERSION
         ("yt-dlp " +:+ version
          +:+ " is outdated. Please update: pip install -U yt-dlp")
  else VersionCurrent version.
End Routes.

(** ** [format_duration] and the selection of [main], [yt_transcripts.py] *)

(** [f"{n:02d}"] for an [int]. *)
Definition fmt_02d (n : Z) : string :=
  if (0 <=? n)%Z && (n <? 10)%Z then "0" +:+ Py.str n else Py.str n.

(** [int(seconds // 60)] and [int(seconds % 60)].  Floor division and
    remainder of a float by 60 are exact as long as the quotient is below
    2^53, so they are the floor division and remainder of the rational. *)
Definition duration_mins (seconds : Q) : Z := Qfloor (seconds / 60).

Definition duration_secs (seconds : Q) : Z :=
  Qfloor (seconds - 60 * inject_Z (duration_mins seconds)).

Definition format_duration (seconds : Q) : string :=
  Py.str (duration_mins seconds) +:+ ":" +:+ fmt_02d (duration_secs seconds).

(** [l[:n]] for an [int] [n]: a negative [n] counts from the end. *)
Definition slice_to {A : Type} (n : Z) (l : list A) : list A :=
  if (0 <=? n)%Z then firstn (Z.to_nat n) l
  else firstn (length l - Z.to_nat (- n)) l.

(** The url that [get_channel_videos] hands to the tool, in
    [yt_transcripts.py] and in [app.py]. *)
Definition videos_url_cli (url : string) : string :=
  if negb (Py.endswith url "/videos") then
    if Py.endswith url "/" then url +:+ "videos" else url +:+ "/videos"
  else url.

Definition videos_url (url sort_by : string) : string :=
  let url :=
    if negb (Py.endswith url "/videos")
    then Py.rstrip_by (Ascii.eqb "/") url +:+ "/videos" else url in
  if String.eqb sort_by "views"
  then hd EmptyString (Py.split "?" url) +:+ "?sort=p" else url.

Section Main.
Variable py_float : string -> option Q.
Variable py_int : string -> option Z.
Variable yt_dlp_base_cmd : list string.
Variable run_command : runner.

(** The channel branch of [main] up to the download: list, filter, cut to
    [--top].  [None] is [sys.exit(1)]; the [print] calls are left out. *)
Definition main_select (url : string) (top : Z)
    (max_duration min_duration min_views : option Z) (sort : string)
    (fs : files) : option (list video) :=
  let videos :=
    get_channel_videos_cli py_float py_int yt_dlp_base_cmd run_command
                           url (top * 3) fs in
  match videos with
  | [] => None
  | _ =>
      let videos :=
        filter_videos videos max_duration min_duration min_views sort in
      let videos := slice_to top videos in
      match videos with
      | [] => None
      | _ => Some videos
      end
  end.

(** The single-video branch of [main]. *)
Definition main_single (url : string) : option (list video) :=
  match search_video_id url with
  | None => None
  | Some video_id => Some [Video.mk video_id "Single Video" 0 0 url]
  end.
End Main.

(** ** Concrete collaborators for the examples *)

(** A run of the tool that writes [new_files] and reports [stderr] and
    [code], whatever its arguments. *)
Definition tool_writes (new_files : files) (stderr : string) (code : Z)
  : runner :=
  fun _ _ fs => ((EmptyString, stderr, code), new_files ∪ fs).

(** [int] and [float] on plain decimal numerals ([0-9]+), where they are
    Python's; everything else is refused here. *)
Fixpoint dec_digits (acc : Z) (s : string) : option Z :=
  match s with
  | EmptyString => Some acc
  | String c s' =>
      if Py.isdigit c
      then dec_digits (10 * acc + Z.of_nat (Py.code c - 48)) s'
      else None
  end.

Definition dec_int (s : string) : option Z :=
  if Py.nonempty s then dec_digits 0 s else None.

Definition dec_float (s : string) : option Q :=
  inject_Z <$> dec_int s.

Definition fmt_none (q : Q) : string := "?".

(** Two videos, the more popular one first, and a run of the pool in which
    both fetches succeed and the second one finishes first. *)
Definition video_a : video :=
  Video.mk "aaaaaaaaaaa" "A" 0 900 (watch_url "aaaaaaaaaaa").
Definition video_b : video :=
  Video.mk "bbbbbbbbbbb" "B" 0 100 (watch_url "bbbbbbbbbbb").

Definition fetched_ok (v : video) (transcript : string) : fetched :=
  mk_fetched (Video.id v) transcript "" (Some 1%Q) Success.

Definition second_first : pool_run fetched :=
  mk_run (fun i => match i with
                   | 0 => Returned (fetched_ok video_a "text of A")
                   | _ => Returned (fetched_ok video_b "text of B")
                   end)
         (fun _ => [])
         [1; 0].

Definition second_first_cli : pool_run (string * string) :=
  mk_run (fun i => match i with
                   | 0 => Returned (Video.id video_a, "text of A"%string)
                   | _ => Returned (Video.id video_b, "text of B"%string)
                   end)
         (fun _ => [])
         [1; 0].

(** A run in which the second fetch raises. *)
Definition second_raises : pool_run fetched :=
  mk_run (fun i => match i with
                   | 0 => Returned (fetched_ok video_a "text of A")
                   | _ => Raised "boom"
                   end)
         (fun _ => [])
         [1; 0].

(** Files of the examples. *)
Definition en_and_untagged : files :=
  {[ "/tmp/yt_transcript_abcdefghijk.en.vtt"%string := "english"%string;
     "/tmp/yt_transcript_abcdefghijk.vtt"%string := "untagged"%string ]}.

Definition ru_and_en : files :=
  {[ "/tmp/yt_transcript_abcdefghijk.ru.vtt"%string := "russian"%string;
     "/tmp/yt_transcript_abcdefghijk.en.vtt"%string := "english"%string ]}.

Definition part_file : files :=
  {[ "/tmp/yt_transcript_abcdefghijk.en.vtt.part"%string := "WEBVTT"%string ]}.

Definition too_many_requests : string :=
  "ERROR: Unable to download video subtitles for 'en': HTTP Error 429: Too Many Requests".

(** A tool that writes nothing and fails without a message. *)
Definition tool_idle : runner :=
  fun _ _ fs => ((EmptyString, EmptyString, 1%Z), fs).

(** A tool that prints [stdout] and succeeds. *)
Definition tool_prints (stdout : string) : runner :=
  fun _ _ fs => ((stdout, EmptyString, 0%Z), fs).

Definition untagged_only : files :=
  {[ "/tmp/yt_transcript_abcdefghijk.vtt"%string := "untagged"%string ]}.

(** What the future with index [i] leaves in the dictionary of
    [download_transcripts]: its transcript, when it returned one that is not
    empty. *)
Definition cli_kept (run : pool_run (string * string)) (i : nat)
  : option string :=
  match outcome_of run i with
  | Returned (_, transcript) =>
      if Py.nonempty transcript then Some transcript else None
  | Raised _ => None
  end.

(** The run of [second_first_cli] with the futures completing in the order
    of submission. *)
Definition in_order_cli : pool_run (string * string) :=
  mk_run (outcome_of second_first_cli) (fun _ => []) [0; 1].

(** * Properties *)

(** ** Strings *)

Section StringFacts.

Lemma prefix_single (c d : ascii) (s : string) :
  String.prefix (String c EmptyString) (String d s) = Ascii.eqb c d.
Proof.
  simpl. destruct (ascii_dec c d) as [->|Hne].
  - rewrite Ascii.eqb_refl. now destruct s.
  - symmetry. now apply Ascii.eqb_neq.
Qed.

Lemma contains_single_cons (c d : ascii) (s : string) :
  Py.contains (String c EmptyString) (String d s)
  = Ascii.eqb c d || Py.contains (String c EmptyString) s.
Proof.
  change (Py.contains (String c EmptyString) (String d s))
    with (String.prefix (String c EmptyString) (String d s)
          || Py.contains (String c EmptyString) s).
  now rewrite prefix_single.
Qed.

Lemma contains_later (needle : string) (c : ascii) (s : string) :
  Py.contains needle s = true -> Py.contains needle (String c s) = true.
Proof.
  intros H.
  change (String.prefix needle (String c s) || Py.contains needle s = true).
  rewrite H. apply orb_true_r.
Qed.

Lemma split_nonempty (sep : ascii) (s : string) : Py.split sep s <> [].
Proof.
  destruct s as [|c s]; simpl; [discriminate|].
  destruct (Ascii.eqb c sep); [discriminate|].
  now destruct (Py.split sep s).
Qed.

(** A text without the separator is one piece. *)
Lemma split_no_sep (sep : ascii) (s : string) :
  Py.contains (String sep EmptyString) s = false -> Py.split sep s = [s].
Proof.
  induction s as [|c s IH]; intros H; [reflexivity|].
  rewrite contains_single_cons in H.
  apply orb_false_iff in H as [Hc Hs].
  simpl. rewrite Ascii.eqb_sym, Hc. now rewrite (IH Hs).
Qed.

(** Splitting distributes over a separator put between two texts. *)
Lemma split_app_sep (sep : ascii) (a b : string) :
  Py.split sep (a +:+ String sep b) = Py.split sep a ++ Py.split sep b.
Proof.
  induction a as [|c a IH]; simpl.
  - now rewrite Ascii.eqb_refl.
  - destruct (Ascii.eqb c sep); [now rewrite IH|].
    rewrite IH. pose proof (split_nonempty sep a) as Hne.
    now destruct (Py.split sep a).
Qed.

Lemma lstrip_by_length (p : ascii -> bool) (s : string) :
  String.length (Py.lstrip_by p s) <= String.length s.
Proof.
  induction s as [|c s IH]; simpl; [lia|].
  destruct (p c); simpl; lia.
Qed.

Lemma rstrip_by_length (p : ascii -> bool) (s : string) :
  String.length (Py.rstrip_by p s) <= String.length s.
Proof.
  induction s as [|c s IH]; simpl; [lia|].
  destruct (Py.rstrip_by p s); [destruct (p c)|]; simpl in *; lia.
Qed.

Lemma strip_length (s : string) :
  String.length (Py.strip s) <= String.length s.
Proof.
  unfold Py.strip, Py.rstrip, Py.lstrip.
  pose proof (rstrip_by_length Py.isspace (Py.lstrip_by Py.isspace s)).
  pose proof (lstrip_by_length Py.isspace s). lia.
Qed.

Lemma append_assoc (a b c : string) : (a +:+ b) +:+ c = a +:+ (b +:+ c).
Proof.
  induction a as [|d a IH]; [reflexivity|].
  change (String d ((a +:+ b) +:+ c) = String d (a +:+ (b +:+ c))).
  now rewrite IH.
Qed.

Lemma nonempty_false (s : string) : Py.nonempty s = false -> s = EmptyString.
Proof. now destruct s. Qed.

End StringFacts.

(** ** The caption cleaner *)

Section Cleaner.

Lemma sub_tags_lengths (s : string) :
  String.length (sub_tags s) <= String.length s
  /\ String.length (skip_tag s) <= String.length s.
Proof.
  induction s as [|c s [IH1 IH2]]; simpl; [lia|].
  split.
  - destruct (Ascii.eqb c "<" && tag_opens s); simpl; lia.
  - destruct (Ascii.eqb c ">"); lia.
Qed.

Lemma sub_tags_tag_free (s : string) : has_tag s = false -> sub_tags s = s.
Proof.
  induction s as [|c s IH]; simpl; [reflexivity|].
  intros H. apply orb_false_iff in H as [H1 H2].
  now rewrite H1, (IH H2).
Qed.

Lemma sub_tags_shrinks (s : string) :
  has_tag s = true -> String.length (sub_tags s) < String.length s.
Proof.
  induction s as [|c s IH]; simpl; [discriminate|].
  destruct (Ascii.eqb c "<" && tag_opens s); simpl.
  - intros _. pose proof (sub_tags_lengths s). lia.
  - intros H. specialize (IH H). lia.
Qed.

Lemma sub_ts_go_length (k : nat) (s : string) :
  String.length (sub_ts_go k s) <= String.length s.
Proof.
  revert k. induction s as [|c s IH]; intros k; [simpl; lia|].
  cbn [sub_ts_go String.length]. destruct k as [|k].
  - destruct (matches_at ts_pattern (String c s)).
    + generalize (IH (length ts_pattern - 1)). lia.
    + generalize (IH 0). cbn [String.length]. lia.
  - generalize (IH k). lia.
Qed.

Lemma digit_not_gt (c : ascii) : Py.isdigit c = true -> Ascii.eqb c ">" = false.
Proof.
  intros H. destruct (Ascii.eqb_spec c ">") as [->|]; [|reflexivity].
  vm_compute in H. discriminate.
Qed.

Lemma matches_closing (p : list char_class) (s : string) :
  matches_at (p ++ [Lit ">"%char]) s = true -> Py.contains ">" s = true.
Proof.
  revert s. induction p as [|k p IH]; intros s H.
  - destruct s as [|c s]; [discriminate|]. simpl in H.
    rewrite andb_true_r in H. apply Ascii.eqb_eq in H as ->.
    rewrite contains_single_cons. reflexivity.
  - destruct s as [|c s]; [discriminate|].
    simpl in H. apply andb_true_iff in H as [_ H].
    apply contains_later. now apply IH.
Qed.

(** A time-code tag is a tag: the second pattern has nothing left to
    remove where the first one found nothing. *)
Lemma ts_is_tag (c : ascii) (s : string) :
  matches_at ts_pattern (String c s) = true ->
  Ascii.eqb c "<" && tag_opens s = true.
Proof.
  intros H.
  change ts_pattern
    with (Lit "<"%char :: Digit
          :: [Digit; Lit ":"; Digit; Digit; Lit ":"; Digit; Digit;
              Lit "."; Digit; Digit; Digit]%char ++ [Lit ">"%char]) in H.
  cbn [matches_at class_ok] in H.
  apply andb_true_iff in H as [Hc H]. rewrite Hc. simpl.
  destruct s as [|d s]; [discriminate|].
  apply andb_true_iff in H as [Hd H].
  simpl. rewrite (digit_not_gt d Hd). simpl.
  eapply matches_closing, H.
Qed.

Lemma sub_ts_tag_free (s : string) : has_tag s = false -> sub_ts s = s.
Proof.
  unfold sub_ts. induction s as [|c s IH]; [reflexivity|].
  intros H. simpl in H. apply orb_false_iff in H as [H1 H2].
  cbn [sub_ts_go].
  destruct (matches_at ts_pattern (String c s)) eqn:Hm.
  - apply ts_is_tag in Hm. congruence.
  - now rewrite (IH H2).
Qed.

(** The lines that the per-line step leaves alone. *)
Lemma clean_line_fixed (t : string) :
  clean_line t = t <-> has_tag t = false /\ Py.strip t = t.
Proof.
  unfold clean_line. split.
  - intros H.
    assert (Hlen : String.length t <= String.length (sub_tags t)).
    { rewrite <- H at 1.
      pose proof (strip_length (sub_ts (sub_tags t))).
      pose proof (sub_ts_go_length 0 (sub_tags t)).
      unfold sub_ts in *. lia. }
    destruct (has_tag t) eqn:Ht.
    + apply sub_tags_shrinks in Ht. lia.
    + split; [reflexivity|].
      rewrite (sub_tags_tag_free t Ht), (sub_ts_tag_free t Ht) in H. exact H.
  - intros [Ht Hs].
    now rewrite (sub_tags_tag_free t Ht), (sub_ts_tag_free t Ht).
Qed.

(** On a text of one line the cleaner is the per-line step. *)
Lemma clean_single_line (t : string) :
  Py.contains (String NL EmptyString) t = false ->
  clean_vtt_content t = if skipped t then EmptyString else clean_line t.
Proof.
  intros H. unfold clean_vtt_content. rewrite (split_no_sep NL t H).
  cbn [clean_loop]. destruct (skipped t); [reflexivity|].
  destruct (Py.nonempty (clean_line t)) eqn:Hne; simpl.
  - reflexivity.
  - now rewrite (nonempty_false _ Hne).
Qed.

Lemma skipped_cli_eq (line : string) : skipped_cli line = skipped line.
Proof.
  unfold skipped_cli, skipped.
  destruct (Py.nonempty (Py.strip line)) eqn:Hs; simpl; [|reflexivity].
  assert (He : String.eqb (Py.strip line) "" = false).
  { destruct (Py.strip line); [discriminate|reflexivity]. }
  rewrite He.
  destruct (Py.startswith line "WEBVTT"), (Py.startswith line "Kind:"),
    (Py.startswith line "Language:"), (Py.contains "-->" line),
    (Py.startswith line "NOTE"); reflexivity.
Qed.

(** X4: the cleaner of [yt_transcripts.py] and the cleaner of [app.py]
    return the same text on every input, although their tests come in a
    different order. *)
Lemma clean_vtt_content_cli_eq (vtt_content : string) :
  clean_vtt_content_cli vtt_content = clean_vtt_content vtt_content.
Proof.
  unfold clean_vtt_content_cli, clean_vtt_content. f_equal.
  generalize (∅ : gset string), (@nil string).
  induction (Py.split NL vtt_content) as [|line rest IH]; intros seen acc.
  - reflexivity.
  - cbn [clean_loop_cli clean_loop]. rewrite skipped_cli_eq.
    unfold clean_line.
    destruct (skipped line); [apply IH|].
    destruct (Py.nonempty _ && negb _); apply IH.
Qed.

End Cleaner.

Example clean_tags :
  clean_vtt_content "<00:00:01.000><c> hello</c> world" = "hello world"%string.
Proof. vm_compute. reflexivity. Qed.

Example clean_dedup :
  clean_vtt_content
    ("WEBVTT" +:+ String NL ("Kind: captions" +:+ String NL (String NL
     ("00:00:01.000 --> 00:00:02.000" +:+ String NL ("hello" +:+ String NL
     (String NL ("00:00:02.000 --> 00:00:03.000" +:+ String NL ("hello"
      +:+ String NL ("there" +:+ String NL "hello")))))))))
  = "hello there"%string.
Proof. vm_compute. reflexivity. Qed.

Example sub_tags_ex : sub_tags "a<>b<<c>d<e" = "a<>bd<e"%string.
Proof. reflexivity. Qed.

(** C7, as stated, fails: the cleaner turns the line [" WEBVTT"] into the
    one-line text ["WEBVTT"], and cleaning that text again gives the empty
    text, because the header test looks at the line before it is stripped. *)
Lemma clean_output_not_fixed :
  let t := clean_vtt_content " WEBVTT" in
  t = "WEBVTT"%string
  /\ Py.contains (String NL EmptyString) t = false
  /\ clean_vtt_content t <> t.
Proof. vm_compute. repeat split; discriminate. Qed.

(** C7, amended: a text without newline characters is returned unchanged by
    the cleaner exactly when it is empty, or it is not a skipped line (not
    blank, not starting with [WEBVTT], [Kind:], [Language:] or [NOTE], and
    without [-->]), holds no tag [<...>], and has no white space at either
    end. *)
Theorem clean_fixed_point (t : string) :
  Py.contains (String NL EmptyString) t = false ->
  (clean_vtt_content t = t
   <-> t = EmptyString
       \/ (skipped t = false /\ has_tag t = false /\ Py.strip t = t)).
Proof.
  intros Hnl. rewrite (clean_single_line t Hnl).
  destruct (skipped t) eqn:Hsk.
  - split.
    + intros H. now left.
    + intros [->|[H _]]; [reflexivity|discriminate].
  - rewrite clean_line_fixed. split.
    + intros H. right. now split.
    + intros [->|[_ H]]; [discriminate Hsk|exact H].
Qed.

Lemma clean_fixed_point_witness :
  Py.contains (String NL EmptyString) "hello world" = false
  /\ clean_vtt_content "hello world" = "hello world"%string.
Proof.
  split; [reflexivity|].
  apply (proj2 (clean_fixed_point "hello world" eq_refl)).
  right. repeat split; reflexivity.
Defined.

(** ** The outcome classifier *)

(** The chain of [get_video_transcript] is [classify_stderr], applied to the
    diagnostic text of the last run of the download loop. *)
Lemma fetch_kind_classified
    (base : list string) (run_command : runner) (elapsed : Q)
    (fmt_1f : Q -> string) (video_id title : string) (fs : files) :
  let stderr := (download_phase base run_command video_id fs).1.1.2 in
  let k :=
    f_kind (get_video_transcript base run_command elapsed fmt_1f
                                 video_id title fs).1.1 in
  match classify_stderr stderr with
  | Some k' => k = k'
  | None => k = Success \/ k = NoCaptions
  end.
Proof.
  unfold get_video_transcript, download_phase, classify_stderr,
    is_blocked, is_rate_limited, is_auth_failure, is_tool_outdated.
  cbv zeta.
  destruct (run_command _ 45%Z fs) as [[[lang_stdout lang_stderr] lang_code] fs1].
  destruct (download_loop _ _ _ _ _ _ fs1) as [[[stdout stderr] code] fs2].
  cbn [fst snd].
  destruct (Py.contains "Sign in to confirm" stderr
            || Py.contains "captcha" (Py.lower stderr)); [reflexivity|].
  destruct (Py.contains "rate limit" (Py.lower stderr)
            || Py.contains "429" stderr); [reflexivity|].
  destruct (Py.contains "cookies" (Py.lower stderr)
            && Py.contains "error" (Py.lower stderr)); [reflexivity|].
  destruct (Py.contains "found 0 sig function possibilities" stderr
            || Py.contains "Signature solving failed" stderr
            || Py.contains "n challenge solving failed" stderr
            || Py.contains "Only images are available" stderr); [reflexivity|].
  destruct (search_subs _ _ fs2) as [[[path transcript]|] fs3]; cbn; auto.
Qed.

(** C4: whatever the exit code, the fetch classifies the diagnostic text of
    its last download run in the order Blocked, RateLimited, AuthFailure,
    ToolOutdated, and only then NoCaptions or Success.  A text with a
    rate-limit marker (["rate limit"] in any case, or ["429"]) is never
    NoCaptions: it is RateLimited, or Blocked when it also matches the
    bot-block pattern. *)
Theorem classifier_precedence
    (base : list string) (run_command : runner) (elapsed : Q)
    (fmt_1f : Q -> string) (video_id title : string) (fs fs' : files)
    (stdout stderr : string) (code : Z) :
  download_phase base run_command video_id fs = ((stdout, stderr, code), fs') ->
  let k :=
    f_kind (get_video_transcript base run_command elapsed fmt_1f
                                 video_id title fs).1.1 in
  (is_blocked stderr = true -> k = Blocked)
  /\ (is_blocked stderr = false -> is_rate_limited stderr = true ->
      k = RateLimited)
  /\ (is_blocked stderr = false -> is_rate_limited stderr = false ->
      is_auth_failure stderr = true -> k = AuthFailure)
  /\ (is_blocked stderr = false -> is_rate_limited stderr = false ->
      is_auth_failure stderr = false -> is_tool_outdated stderr = true ->
      k = ToolOutdated)
  /\ (is_blocked stderr = false -> is_rate_limited stderr = false ->
      is_auth_failure stderr = false -> is_tool_outdated stderr = false ->
      k = Success \/ k = NoCaptions)
  /\ (is_rate_limited stderr = true -> k = RateLimited \/ k = Blocked).
Proof.
  intros Hphase k.
  pose proof (fetch_kind_classified base run_command elapsed fmt_1f
                video_id title fs) as H.
  cbv zeta in H. rewrite Hphase in H. cbn [fst snd] in H. fold k in H.
  unfold classify_stderr in H.
  destruct (is_blocked stderr), (is_rate_limited stderr),
    (is_auth_failure stderr), (is_tool_outdated stderr);
    repeat split; intros; try discriminate; auto.
Qed.

Lemma classifier_precedence_witness :
  let run := tool_writes ∅ "ERROR: HTTP Error 429: Too Many Requests" 1 in
  download_phase [] run "abcdefghijk" ∅
  = ((EmptyString, "ERROR: HTTP Error 429: Too Many Requests"%string, 1%Z), ∅)
  /\ f_kind (get_video_transcript [] run 0 fmt_none "abcdefghijk" "T" ∅).1.1
     = RateLimited.
Proof.
  assert (H : download_phase []
                (tool_writes ∅ "ERROR: HTTP Error 429: Too Many Requests" 1)
                "abcdefghijk" ∅
              = ((EmptyString,
                  "ERROR: HTTP Error 429: Too Many Requests"%string, 1%Z), ∅))
    by (vm_compute; reflexivity).
  split; [exact H|].
  exact (proj1 (proj2 (classifier_precedence [] _ 0 fmt_none "abcdefghijk" "T" ∅ ∅
                         _ _ _ H)) eq_refl eq_refl).
Defined.

Example classify_429 :
  classify_stderr "ERROR: HTTP Error 429: Too Many Requests" = Some RateLimited.
Proof. reflexivity. Qed.

Example classify_both_markers :
  classify_stderr "Rate Limit reached, please solve the CAPTCHA" = Some Blocked.
Proof. reflexivity. Qed.

(** ** Stable descending sort *)

Section SortFacts.
Context {A K : Type} (ltb : K -> K -> bool) (key : A -> K).

Lemma insert_desc_perm (x : A) (l : list A) :
  Permutation (insert_desc ltb key x l) (x :: l).
Proof.
  induction l as [|y r IH]; simpl; [reflexivity|].
  destruct (ltb (key x) (key y)); [|reflexivity].
  rewrite IH. apply perm_swap.
Qed.

Lemma sort_desc_perm (l : list A) : Permutation (sort_desc ltb key l) l.
Proof.
  induction l as [|x l IH]; simpl; [reflexivity|].
  rewrite insert_desc_perm. now apply perm_skip.
Qed.

(** Stability: a class of elements none of which is below another keeps
    its order. *)
Lemma insert_desc_filter (q : A -> bool) (x : A) (l : list A) :
  (forall a b, q a = true -> q b = true -> ltb (key a) (key b) = false) ->
  List.filter q (insert_desc ltb key x l) = List.filter q (x :: l).
Proof.
  intros Hq. induction l as [|y r IH]; [reflexivity|].
  cbn [insert_desc]. destruct (ltb (key x) (key y)) eqn:Hlt; [|reflexivity].
  cbn [List.filter] in *. rewrite IH.
  destruct (q x) eqn:Hx, (q y) eqn:Hy; try reflexivity.
  rewrite (Hq x y Hx Hy) in Hlt. discriminate.
Qed.

Lemma sort_desc_stable (q : A -> bool) (l : list A) :
  (forall a b, q a = true -> q b = true -> ltb (key a) (key b) = false) ->
  List.filter q (sort_desc ltb key l) = List.filter q l.
Proof.
  intros Hq. induction l as [|x l IH]; [reflexivity|].
  cbn [sort_desc fold_right]. fold (sort_desc ltb key l).
  rewrite (insert_desc_filter q x _ Hq). cbn [List.filter]. now rewrite IH.
Qed.

Hypothesis ltb_asym : forall a b, ltb a b = true -> ltb b a = false.
Hypothesis geb_trans :
  forall a b c, ltb a b = false -> ltb b c = false -> ltb a c = false.

Lemma insert_desc_sorted (x : A) (l : list A) :
  StronglySorted (desc ltb key) l -> StronglySorted (desc ltb key) (insert_desc ltb key x l).
Proof.
  induction 1 as [|y r Hr IH Hy]; simpl.
  - constructor; constructor.
  - destruct (ltb (key x) (key y)) eqn:Hlt.
    + constructor; [exact IH|].
      eapply Permutation_Forall; [symmetry; apply insert_desc_perm|].
      constructor; [|exact Hy]. now apply ltb_asym.
    + constructor; [now constructor|].
      constructor; [exact Hlt|].
      eapply Forall_impl; [exact Hy|].
      intros z Hz. now apply (geb_trans _ (key y)).
Qed.

Lemma sort_desc_sorted (l : list A) : StronglySorted (desc ltb key) (sort_desc ltb key l).
Proof.
  induction l as [|x l IH]; simpl; [constructor|].
  now apply insert_desc_sorted.
Qed.

End SortFacts.

Lemma StronglySorted_impl {A : Type} (R R' : A -> A -> Prop) (l : list A) :
  (forall x y, R x y -> R' x y) -> StronglySorted R l -> StronglySorted R' l.
Proof.
  intros HR. induction 1 as [|x l Hl IH Hx]; constructor; [exact IH|].
  eapply Forall_impl; [exact Hx|]. intros y. apply HR.
Qed.

Lemma Qltb_false (a b : Q) : Qltb a b = false <-> (b <= a)%Q.
Proof.
  unfold Qltb. rewrite negb_false_iff. apply Qle_bool_iff.
Qed.

(** ** The catalog filter *)

Section Filter.

Lemma filter_filter {A : Type} (p q : A -> bool) (l : list A) :
  List.filter p (List.filter q l) = List.filter (fun x => q x && p x) l.
Proof.
  induction l as [|x l IH]; [reflexivity|].
  simpl. destruct (q x); simpl; [destruct (p x)|]; now rewrite IH.
Qed.

Lemma filter_true {A : Type} (l : list A) :
  List.filter (fun _ => true) l = l.
Proof. induction l as [|x l IH]; simpl; now rewrite ?IH. Qed.

(** One stage of the filter: a test that is applied only when its
    threshold is truthy. *)
Lemma stage_filter (o : option Z) (f : Z -> video -> bool) (l : list video) :
  match truthy o with
  | Some m => List.filter (f m) l
  | None => l
  end
  = List.filter (fun v => match truthy o with
                          | Some m => f m v
                          | None => true
                          end) l.
Proof. destruct (truthy o); [reflexivity|now rewrite filter_true]. Qed.

(** The filter is the three tests followed by the requested sort. *)
Lemma filter_videos_eq (videos : list video) (a b c : option Z)
    (sort_by : string) :
  filter_videos videos a b c sort_by
  = let kept := List.filter (within a b c) videos in
    if String.eqb sort_by "views" then sort_desc Z.ltb Video.views kept
    else if String.eqb sort_by "duration"
         then sort_desc Qltb Video.duration kept
         else kept.
Proof.
  unfold filter_videos. cbv zeta.
  rewrite (stage_filter a
             (fun m v => Qle_bool (Video.duration v) (inject_Z (m * 60)))).
  rewrite (stage_filter b
             (fun m v => Qle_bool (inject_Z (m * 60)) (Video.duration v))).
  rewrite (stage_filter c (fun m v => (m <=? Video.views v)%Z)).
  rewrite !filter_filter. reflexivity.
Qed.

Lemma filter_videos_perm (videos : list video) (a b c : option Z)
    (sort_by : string) :
  Permutation (filter_videos videos a b c sort_by)
              (List.filter (within a b c) videos).
Proof.
  rewrite filter_videos_eq. cbv zeta.
  destruct (String.eqb sort_by "views"); [apply sort_desc_perm|].
  destruct (String.eqb sort_by "duration"); [apply sort_desc_perm|].
  reflexivity.
Qed.

(** The tests are inclusive. *)
Lemma within_spec (a b c : option Z) (v : video) :
  within a b c v = true
  <-> (forall m, truthy a = Some m -> (Video.duration v <= inject_Z (m * 60))%Q)
      /\ (forall m, truthy b = Some m ->
                    (inject_Z (m * 60) <= Video.duration v)%Q)
      /\ (forall m, truthy c = Some m -> (m <= Video.views v)%Z).
Proof.
  unfold within. rewrite !andb_true_iff.
  destruct (truthy a) as [ma|], (truthy b) as [mb|], (truthy c) as [mc|];
    rewrite ?Qle_bool_iff, ?Z.leb_le;
    (split;
     [ intros [H1 [H2 H3]]; repeat split; intros m Hm;
       try discriminate Hm; try (injection Hm as <-); assumption
     | intros (H1 & H2 & H3); repeat split; auto ]).
Qed.

End Filter.

Section FilterSorted.

Lemma Zltb_asym (a b : Z) : (a <? b)%Z = true -> (b <? a)%Z = false.
Proof. rewrite Z.ltb_lt, Z.ltb_ge. lia. Qed.

Lemma Zgeb_trans (a b c : Z) :
  (a <? b)%Z = false -> (b <? c)%Z = false -> (a <? c)%Z = false.
Proof. rewrite !Z.ltb_ge. lia. Qed.

Lemma Qltb_asym (a b : Q) : Qltb a b = true -> Qltb b a = false.
Proof.
  intros H. apply Qltb_false. apply Qnot_lt_le. intros Hlt.
  apply Qlt_le_weak in Hlt. apply Qltb_false in Hlt. congruence.
Qed.

Lemma Qgeb_trans (a b c : Q) :
  Qltb a b = false -> Qltb b c = false -> Qltb a c = false.
Proof.
  rewrite !Qltb_false. intros H1 H2. now apply (Qle_trans _ b).
Qed.

Lemma sorted_by_views (l : list video) :
  StronglySorted (fun x y => (Video.views y <= Video.views x)%Z)
                 (sort_desc Z.ltb Video.views l).
Proof.
  eapply StronglySorted_impl;
    [|apply (sort_desc_sorted Z.ltb Video.views Zltb_asym Zgeb_trans)].
  intros x y H. unfold desc in H. now apply Z.ltb_ge in H.
Qed.

Lemma sorted_by_duration (l : list video) :
  StronglySorted (fun x y => (Video.duration y <= Video.duration x)%Q)
                 (sort_desc Qltb Video.duration l).
Proof.
  eapply StronglySorted_impl;
    [|apply (sort_desc_sorted Qltb Video.duration Qltb_asym Qgeb_trans)].
  intros x y H. unfold desc in H. now apply Qltb_false in H.
Qed.

Lemma stable_by_views (k : Z) (l : list video) :
  List.filter (fun v => (Video.views v =? k)%Z) (sort_desc Z.ltb Video.views l)
  = List.filter (fun v => (Video.views v =? k)%Z) l.
Proof.
  apply sort_desc_stable. intros x y Hx Hy.
  apply Z.eqb_eq in Hx, Hy. rewrite Hx, Hy. apply Z.ltb_irrefl.
Qed.

Lemma stable_by_duration (k : Q) (l : list video) :
  List.filter (fun v => Qeq_bool (Video.duration v) k)
              (sort_desc Qltb Video.duration l)
  = List.filter (fun v => Qeq_bool (Video.duration v) k) l.
Proof.
  apply sort_desc_stable. intros x y Hx Hy.
  apply Qeq_bool_iff in Hx, Hy. apply Qltb_false.
  rewrite Hx, Hy. apply Qle_refl.
Qed.

(** The videos of the example: the 1200 s entry fails the test for a
    maximum of 15 minutes (900 s), the others pass. *)
Lemma within_example (v : video) (d : Q) :
  (Video.duration v == d)%Q ->
  within (Some 15%Z) None None v = Qle_bool d 900.
Proof.
  intros Hd. unfold within. cbn [truthy]. rewrite !andb_true_r.
  change (inject_Z (15 * 60)) with 900%Q.
  destruct (Qle_bool d 900) eqn:E.
  - apply Qle_bool_iff. rewrite Hd. now apply Qle_bool_iff.
  - destruct (Qle_bool (Video.duration v) 900) eqn:E'; [|reflexivity].
    apply Qle_bool_iff in E'. rewrite Hd in E'.
    apply Qle_bool_iff in E'. congruence.
Qed.

End FilterSorted.

(** C8: the filter keeps exactly the videos that pass the inclusive
    threshold tests (a duration equal to the bound passes), and its result
    is the stable descending sort of the kept videos by the requested key:
    sorted by views or duration, highest first, videos with equal keys in
    their original order.  With durations 30, 300, 600 and 1200 seconds and
    a maximum of 15 minutes (900 seconds), the 1200 s entry is excluded and
    only that entry. *)
Theorem filter_videos_correct (videos : list video) (a b c : option Z)
    (sort_by : string) :
  let out := filter_videos videos a b c sort_by in
  (forall v,
      In v out
      <-> In v videos
          /\ (forall m, truthy a = Some m ->
                        (Video.duration v <= inject_Z (m * 60))%Q)
          /\ (forall m, truthy b = Some m ->
                        (inject_Z (m * 60) <= Video.duration v)%Q)
          /\ (forall m, truthy c = Some m -> (m <= Video.views v)%Z))
  /\ Permutation out (List.filter (within a b c) videos)
  /\ (sort_by = "views"%string ->
      StronglySorted (fun x y => (Video.views y <= Video.views x)%Z) out
      /\ forall k,
          List.filter (fun v => (Video.views v =? k)%Z) out
          = List.filter (fun v => (Video.views v =? k)%Z)
                        (List.filter (within a b c) videos))
  /\ (sort_by = "duration"%string ->
      StronglySorted (fun x y => (Video.duration y <= Video.duration x)%Q) out
      /\ forall k,
          List.filter (fun v => Qeq_bool (Video.duration v) k) out
          = List.filter (fun v => Qeq_bool (Video.duration v) k)
                        (List.filter (within a b c) videos))
  /\ (Forall2 (fun v d => (Video.duration v == d)%Q) videos
              [30; 300; 600; 1200]%Q ->
      Permutation (filter_videos videos (Some 15%Z) None None sort_by)
                  (firstn 3 videos)).
Proof.
  intros out. repeat apply conj.
  - intros v. unfold out.
    rewrite (Permutation_in' (eq_refl v) (filter_videos_perm videos a b c sort_by)).
    rewrite filter_In, within_spec. reflexivity.
  - apply filter_videos_perm.
  - intros ->. unfold out. rewrite filter_videos_eq. cbn.
    split; [apply sorted_by_views|intros k; apply stable_by_views].
  - intros ->. unfold out. rewrite filter_videos_eq. cbn.
    split; [apply sorted_by_duration|intros k; apply stable_by_duration].
  - intros H.
    repeat (let v := fresh "v" in let Hd := fresh "Hd" in
            inversion H as [|v ? ? ? Hd H']; subst; clear H; rename H' into H).
    inversion H; subst; clear H.
    rewrite filter_videos_perm. cbn [List.filter firstn].
    rewrite (within_example _ _ Hd), (within_example _ _ Hd0),
      (within_example _ _ Hd1), (within_example _ _ Hd2).
    reflexivity.
Qed.

(** C9: a threshold of 0 for the maximum duration, the minimum duration or
    the minimum views is the same as no threshold on that dimension, and a
    filter whose thresholds are all 0 excludes no video. *)
Theorem zero_threshold_ignored (videos : list video) (a b c : option Z)
    (sort_by : string) :
  filter_videos videos (Some 0%Z) b c sort_by
  = filter_videos videos None b c sort_by
  /\ filter_videos videos a (Some 0%Z) c sort_by
     = filter_videos videos a None c sort_by
  /\ filter_videos videos a b (Some 0%Z) sort_by
     = filter_videos videos a b None sort_by
  /\ Permutation
       (filter_videos videos (Some 0%Z) (Some 0%Z) (Some 0%Z) sort_by) videos.
Proof.
  repeat apply conj; try reflexivity.
  rewrite filter_videos_perm.
  change (within (Some 0%Z) (Some 0%Z) (Some 0%Z)) with (fun _ : video => true).
  now rewrite filter_true.
Qed.

Example filter_example :
  map Video.id
    (filter_videos
       [Video.mk "a" "A" 30 5 ""; Video.mk "b" "B" 300 7 "";
        Video.mk "c" "C" 900 7 ""; Video.mk "d" "D" 1200 9 ""]
       (Some 15%Z) None None "views")
  = ["b"; "c"; "a"]%string.
Proof. reflexivity. Qed.

(** ** The catalog lister *)

Section Lister.
Variable py_float : string -> option Q.
Variable py_int : string -> option Z.

Lemma contains_app_sep (c : ascii) (a b : string) :
  Py.contains (String c EmptyString) (a +:+ String c b) = true.
Proof.
  induction a as [|d a IH].
  - change (EmptyString +:+ String c b) with (String c b).
    rewrite contains_single_cons, Ascii.eqb_refl. reflexivity.
  - change (String d a +:+ String c b) with (String d (a +:+ String c b)).
    now apply contains_later.
Qed.

Lemma sep_cons (s : string) : "|" +:+ s = String "|" s.
Proof. reflexivity. Qed.

(** No piece of a split holds the separator. *)
Lemma split_pieces (sep : ascii) (s w : string) :
  In w (Py.split sep s) -> Py.contains (String sep EmptyString) w = false.
Proof.
  revert w. induction s as [|c s IH]; intros w; simpl.
  - intros [<-|[]]. reflexivity.
  - destruct (Ascii.eqb c sep) eqn:Hc.
    + intros [<-|H]; [reflexivity|now apply IH].
    + pose proof (split_nonempty sep s) as Hne.
      destruct (Py.split sep s) as [|w0 ws]; [contradiction|].
      intros [<-|H].
      * rewrite contains_single_cons, Ascii.eqb_sym, Hc. simpl.
        apply IH. now left.
      * apply IH. now right.
Qed.

(** What the loop body does with a line of at least four fields. *)
Lemma parse_line_parts (line p0 p1 p2 p3 : string) (rest : list string) :
  Py.split "|" line = p0 :: p1 :: p2 :: p3 :: rest ->
  parse_line py_float py_int line
  = match field_or_zero 0%Q py_float p2, field_or_zero 0%Z py_int p3 with
    | Some d, Some n => Some (Video.mk p0 p1 d n (watch_url p0))
    | _, _ => None
    end.
Proof.
  intros Hs. unfold parse_line.
  assert (Hne : Py.nonempty line = true).
  { destruct line; [discriminate Hs|reflexivity]. }
  assert (Hc : Py.contains "|" line = true).
  { destruct (Py.contains "|" line) eqn:E; [reflexivity|].
    rewrite (split_no_sep "|" line E) in Hs. discriminate. }
  rewrite Hne, Hc, Hs. cbn [negb orb length Nat.leb].
  destruct (field_or_zero 0%Q py_float p2); [|reflexivity].
  destruct (field_or_zero 0%Z py_int p3); reflexivity.
Qed.

(** A returned descriptor is made of the first four fields of its line. *)
Lemma parse_line_some (line : string) (v : video) :
  parse_line py_float py_int line = Some v ->
  exists p2 p3 rest,
    Py.split "|" line = Video.id v :: Video.title v :: p2 :: p3 :: rest
    /\ field_or_zero 0%Q py_float p2 = Some (Video.duration v)
    /\ field_or_zero 0%Z py_int p3 = Some (Video.views v).
Proof.
  unfold parse_line.
  destruct (negb (Py.nonempty line) || negb (Py.contains "|" line));
    [discriminate|].
  destruct (Py.split "|" line) as [|p0 [|p1 [|p2 [|p3 rest]]]];
    cbn [length Nat.leb]; try discriminate.
  destruct (field_or_zero 0%Q py_float p2) as [d|] eqn:Hd; [|discriminate].
  destruct (field_or_zero 0%Z py_int p3) as [n|] eqn:Hn; [|discriminate].
  intros [= <-]. cbn. now exists p2, p3, rest.
Qed.

Lemma parse_listing_title (stdout : string) (v : video) :
  In v (parse_listing py_float py_int stdout) ->
  Py.contains "|" (Video.title v) = false.
Proof.
  unfold parse_listing. rewrite <- list_elem_of_In, list_elem_of_omap.
  intros (line & _ & Hv).
  destruct (parse_line_some line v Hv) as (p2 & p3 & rest & Hs & _).
  apply (split_pieces "|" line). rewrite Hs. right. now left.
Qed.

Lemma listing_line_split (id t1 t2 dur views : string) :
  Py.contains "|" id = false -> Py.contains "|" t1 = false ->
  Py.contains "|" dur = false -> Py.contains "|" views = false ->
  Py.split "|" (listing_line id (t1 +:+ "|" +:+ t2) dur views)
  = id :: t1 :: Py.split "|" t2 ++ [dur; views].
Proof.
  intros Hid Ht1 Hdur Hviews. unfold listing_line.
  rewrite !append_assoc, !sep_cons, !split_app_sep.
  rewrite (split_no_sep "|" id Hid), (split_no_sep "|" t1 Ht1),
    (split_no_sep "|" dur Hdur), (split_no_sep "|" views Hviews).
  reflexivity.
Qed.

End Lister.

(** C10, as stated, fails: the line of a video with the title ["a|1"],
    duration 2 and 3 views is not dropped.  The split hands ["1"] to [float]
    and ["2"] to [int], both succeed, and the video is returned with the
    title ["a"], duration 1 and 2 views. *)
Lemma piped_title_kept :
  listing_line "vid" "a|1" "2" "3" = "vid|a|1|2|3"%string
  /\ Py.contains "|" "a|1" = true
  /\ parse_listing dec_float dec_int "vid|a|1|2|3"
     = [Video.mk "vid" "a" 1 2 "https://www.youtube.com/watch?v=vid"].
Proof. vm_compute. repeat split; reflexivity. Qed.

(** C10, amended: for a line whose title holds a ['|'], the split shifts the
    columns: the title is cut at its first ['|'], the text up to the next
    ['|'] is read as the duration and the field after it as the view count.
    The record is dropped exactly when one of these two shifted fields is
    neither [NA] nor accepted by [float], respectively [int]; otherwise it
    is returned with the cut title and the shifted numbers.  Every returned
    descriptor has a title without ['|'], and its duration and views are
    the numbers read from two fields of its line. *)
Theorem piped_title_shifts
    (py_float : string -> option Q) (py_int : string -> option Z)
    (id t1 t2 dur views : string) :
  Py.contains "|" id = false -> Py.contains "|" t1 = false ->
  Py.contains "|" dur = false -> Py.contains "|" views = false ->
  let line := listing_line id (t1 +:+ "|" +:+ t2) dur views in
  (exists p2 p3 rest,
      Py.split "|" t2 ++ [dur; views] = p2 :: p3 :: rest
      /\ parse_line py_float py_int line
         = match field_or_zero 0%Q py_float p2,
                 field_or_zero 0%Z py_int p3 with
           | Some d, Some n => Some (Video.mk id t1 d n (watch_url id))
           | _, _ => None
           end)
  /\ (forall stdout v,
         In v (parse_listing py_float py_int stdout) ->
         Py.contains "|" (Video.title v) = false
         /\ exists line' p2 p3 rest,
             Py.split "|" line'
             = Video.id v :: Video.title v :: p2 :: p3 :: rest
             /\ field_or_zero 0%Q py_float p2 = Some (Video.duration v)
             /\ field_or_zero 0%Z py_int p3 = Some (Video.views v)).
Proof.
  intros Hid Ht1 Hdur Hviews line. split.
  - pose proof (listing_line_split id t1 t2 dur views Hid Ht1 Hdur Hviews)
      as Hs. fold line in Hs.
    pose proof (split_nonempty "|" t2) as Hne.
    destruct (Py.split "|" t2) as [|w ws] eqn:Hw; [contradiction|].
    destruct ws as [|w' ws].
    + exists w, dur, [views]. split; [reflexivity|].
      now apply (parse_line_parts py_float py_int line id t1 w dur [views]).
    + exists w, w', (ws ++ [dur; views]). split; [reflexivity|].
      now apply (parse_line_parts py_float py_int line id t1 w w'
                   (ws ++ [dur; views])).
  - intros stdout v Hv.
    split; [now apply (parse_listing_title py_float py_int stdout)|].
    unfold parse_listing in Hv.
    rewrite <- list_elem_of_In, list_elem_of_omap in Hv.
    destruct Hv as (line' & _ & Hv).
    exists line'. now apply parse_line_some.
Qed.

Lemma piped_title_shifts_witness :
  (Py.contains "|" "vid" = false /\ Py.contains "|" "a" = false
   /\ Py.contains "|" "2" = false /\ Py.contains "|" "3" = false)
  /\ exists p2 p3 rest,
      Py.split "|" "1" ++ ["2"; "3"]%string = p2 :: p3 :: rest
      /\ parse_line dec_float dec_int (listing_line "vid" ("a" +:+ "|" +:+ "1") "2" "3")
         = match field_or_zero 0%Q dec_float p2,
                 field_or_zero 0%Z dec_int p3 with
           | Some d, Some n => Some (Video.mk "vid" "a" d n (watch_url "vid"))
           | _, _ => None
           end.
Proof.
  split; [repeat split; reflexivity|].
  exact (proj1 (piped_title_shifts dec_float dec_int "vid" "a" "1" "2" "3"
                  eq_refl eq_refl eq_refl eq_refl)).
Defined.

(** ** The batch orchestrator *)

Section BatchFacts.
Variable start_hms elapsed_total_1f now_stamp : string.
Variable fmt_1f : Q -> string.

(** The loop appends, for every handled future, its entry to [results] or
    its line to [errors]. *)
Lemma batch_loop_lists (videos : list video) (run : pool_run fetched)
    (order : list nat) (st : batch_state) :
  results (batch_loop videos run order st)
  = results st ++ omap (success_entry videos run) order
  /\ errors (batch_loop videos run order st)
     = errors st ++ omap (failure_line videos run) order.
Proof.
  revert st. induction order as [|i order IH]; intros st.
  - cbn. now rewrite !app_nil_r.
  - cbn [batch_loop omap list_omap]. unfold success_entry, failure_line at 1.
    fold (success_entry videos run) (failure_line videos run).
    destruct (videos !! i) as [v|]; [|apply IH].
    destruct (IH (handle_future v (outcome_of run i) (drained_at run i) st))
      as [-> ->].
    unfold handle_future.
    destruct (outcome_of run i) as [r|msg];
      [destruct (Py.nonempty (f_transcript r))|];
      cbn [results errors]; rewrite <- ?app_assoc; split; reflexivity.
Qed.

Lemma run_batch_results (videos : list video) (run : pool_run fetched) :
  results (run_batch start_hms videos run)
  = omap (success_entry videos run) (completion_order run).
Proof. unfold run_batch. now rewrite (proj1 (batch_loop_lists _ _ _ _)). Qed.

Lemma run_batch_errors (videos : list video) (run : pool_run fetched) :
  errors (run_batch start_hms videos run)
  = omap (failure_line videos run) (completion_order run).
Proof. unfold run_batch. now rewrite (proj2 (batch_loop_lists _ _ _ _)). Qed.

(** A submitted future adds exactly one entry, to exactly one list. *)
Lemma one_outcome (videos : list video) (run : pool_run fetched) (i : nat) :
  i < length videos ->
  length (omap (success_entry videos run) [i])
  + length (omap (failure_line videos run) [i]) = 1.
Proof.
  intros Hi. apply lookup_lt_is_Some_2 in Hi as [v Hv].
  cbn. unfold success_entry, failure_line. rewrite Hv.
  destruct (outcome_of run i) as [r|msg];
    [destruct (Py.nonempty (f_transcript r))|]; reflexivity.
Qed.

Lemma outcomes_count (videos : list video) (run : pool_run fetched)
    (order : list nat) :
  Forall (fun i => i < length videos) order ->
  length (omap (success_entry videos run) order)
  + length (omap (failure_line videos run) order) = length order.
Proof.
  induction 1 as [|i order Hi _ IH]; [reflexivity|].
  change (i :: order) with ([i] ++ order).
  rewrite !omap_app, !length_app, <- IH.
  pose proof (one_outcome videos run i Hi). cbn [length] in *. lia.
Qed.

Lemma complete_run_indices {R : Type} (n : nat) (run : pool_run R) :
  complete_run n run ->
  Forall (fun i => i < n) (completion_order run)
  /\ length (completion_order run) = n
  /\ forall i, i < n -> In i (completion_order run).
Proof.
  unfold complete_run. intros Hp. repeat split.
  - eapply Permutation_Forall; [symmetry; exact Hp|].
    apply Forall_forall. intros i Hi.
    apply list_elem_of_In, in_seq in Hi. lia.
  - rewrite (Permutation_length Hp). apply length_seq.
  - intros i Hi. eapply Permutation_in; [symmetry; exact Hp|].
    apply in_seq. lia.
Qed.

Lemma in_enumerate1 {A : Type} (x : A) (l : list A) :
  In x l -> exists i, In (i, x) (enumerate1 l).
Proof.
  unfold enumerate1. generalize 1. induction l as [|y l IH]; intros s; [intros []|].
  intros [->|Hx].
  - exists s. now left.
  - destruct (IH (S s) Hx) as [i Hi]. exists i. now right.
Qed.

End BatchFacts.

(** C5: when every submitted future completes exactly once, the successes
    and the failures of the batch add up to the number of submitted videos:
    each video adds exactly one entry to exactly one of the two lists, so
    none is dropped and none is counted twice.  The same holds for the lists
    of the answer: no videos and no outcomes for an empty submission, as
    many details as videos when nothing succeeded, and
    [count + len(errors) = total] in the report. *)
Theorem batch_cardinality
    (start_hms elapsed_total_1f now_stamp : string) (fmt_1f : Q -> string)
    (videos : list video) (info : channel_info) (run : pool_run fetched) :
  complete_run (length videos) run ->
  let st := run_batch start_hms videos run in
  length (results st) + length (errors st) = length videos
  /\ Permutation (results st)
       (omap (success_entry videos run) (seq 0 (length videos)))
  /\ Permutation (errors st)
       (omap (failure_line videos run) (seq 0 (length videos)))
  /\ (forall i, i < length videos ->
        length (omap (success_entry videos run) [i])
        + length (omap (failure_line videos run) [i]) = 1)
  /\ match api_get_transcripts start_hms elapsed_total_1f now_stamp fmt_1f
             videos info run with
     | NoVideos => length videos = 0
     | NoTranscripts _ details => length details = length videos
     | Report count total errs _ _ =>
         count + length errs = total /\ total = length videos
     end.
Proof.
  intros Hrun st.
  destruct (complete_run_indices _ run Hrun) as (Hall & Hlen & _).
  assert (Hsum : length (results st) + length (errors st) = length videos).
  { unfold st. rewrite run_batch_results, run_batch_errors.
    pose proof (outcomes_count videos run _ Hall) as Hc.
    now rewrite Hlen in Hc. }
  repeat apply conj.
  - exact Hsum.
  - unfold st. rewrite run_batch_results. now rewrite Hrun.
  - unfold st. rewrite run_batch_errors. now rewrite Hrun.
  - intros i Hi. now apply one_outcome.
  - unfold api_get_transcripts. destruct videos as [|v vs]; [reflexivity|].
    fold st. destruct (results st) as [|e es] eqn:Hres.
    + cbn [length] in Hsum. exact Hsum.
    + split; [exact Hsum|reflexivity].
Qed.

Lemma batch_cardinality_witness :
  complete_run 2 second_raises
  /\ length (results (run_batch "" [video_a; video_b] second_raises))
     + length (errors (run_batch "" [video_a; video_b] second_raises)) = 2.
Proof.
  assert (H : complete_run (length [video_a; video_b]) second_raises)
    by apply perm_swap.
  split; [exact H|].
  exact (proj1 (batch_cardinality "" "" "" fmt_none [video_a; video_b]
                  (mk_channel "" "") second_raises H)).
Defined.

(** C6: when the fetch of a video [x] raises, the loop turns the exception
    into a failure line for [x], and every other video whose fetch returned
    a transcript still has its entry in the results; the route answers with
    these lists (the report, or the error answer when nothing succeeded),
    and the text of the report lists every successful video. *)
Theorem fault_isolation
    (start_hms elapsed_total_1f now_stamp : string) (fmt_1f : Q -> string)
    (videos : list video) (info : channel_info) (run : pool_run fetched)
    (x : nat) (vx : video) (msg : string) :
  complete_run (length videos) run ->
  videos !! x = Some vx ->
  outcome_of run x = Raised msg ->
  let st := run_batch start_hms videos run in
  In (error_line vx msg) (errors st)
  /\ (forall j vj r,
         videos !! j = Some vj -> outcome_of run j = Returned r ->
         Py.nonempty (f_transcript r) = true ->
         In (entry_of vj (f_transcript r)) (results st))
  /\ match api_get_transcripts start_hms elapsed_total_1f now_stamp fmt_1f
             videos info run with
     | NoVideos => False
     | NoTranscripts _ details => details = errors st /\ results st = []
     | Report count _ errs _ text =>
         errs = errors st /\ count = length (results st)
         /\ text = Py.join (String NL EmptyString)
                     (output_parts now_stamp fmt_1f info (results st))
     end
  /\ (forall e, In e (results st) ->
        exists i, In (toc_line fmt_1f (i, e))
                     (output_parts now_stamp fmt_1f info (results st))).
Proof.
  intros Hrun Hx Hraised st.
  destruct (complete_run_indices _ run Hrun) as (_ & _ & Hin).
  repeat apply conj.
  - unfold st. rewrite run_batch_errors.
    apply list_elem_of_In, list_elem_of_omap. exists x. split.
    + apply list_elem_of_In, Hin. now apply lookup_lt_Some in Hx.
    + unfold failure_line. now rewrite Hx, Hraised.
  - intros j vj r Hj Hret Hne. unfold st. rewrite run_batch_results.
    apply list_elem_of_In, list_elem_of_omap. exists j. split.
    + apply list_elem_of_In, Hin. now apply lookup_lt_Some in Hj.
    + unfold success_entry. now rewrite Hj, Hret, Hne.
  - unfold api_get_transcripts. destruct videos as [|v vs]; [discriminate Hx|].
    fold st. destruct (results st); repeat split; reflexivity.
  - intros e He. destruct (in_enumerate1 e _ He) as [i Hi]. exists i.
    unfold output_parts. rewrite !in_app_iff.
    right. right. right. left. now apply in_map.
Qed.

Lemma fault_isolation_witness :
  (complete_run 2 second_raises
   /\ [video_a; video_b] !! 1 = Some video_b
   /\ outcome_of second_raises 1 = Raised "boom")
  /\ In (error_line video_b "boom")
        (errors (run_batch "" [video_a; video_b] second_raises))
  /\ In (entry_of video_a "text of A")
        (results (run_batch "" [video_a; video_b] second_raises)).
Proof.
  assert (H : complete_run (length [video_a; video_b]) second_raises)
    by apply perm_swap.
  pose proof (fault_isolation "" "" "" fmt_none [video_a; video_b]
                (mk_channel "" "") second_raises 1 video_b "boom"
                H eq_refl eq_refl) as (He & Hs & _).
  split; [repeat split; [exact H]|].
  split; [exact He|].
  exact (Hs 0 video_a (fetched_ok video_a "text of A") eq_refl eq_refl eq_refl).
Defined.

(** C2 fails on [app.py]: two videos are submitted, the more popular one
    first; both fetches succeed and the second one finishes first.  The
    successes and the table of contents then list the second video first. *)
Theorem completion_order_shows :
  complete_run 2 second_first
  /\ map Video.title [video_a; video_b] = ["A"; "B"]%string
  /\ map r_title (results (run_batch "" [video_a; video_b] second_first))
     = ["B"; "A"]%string
  /\ map (toc_line fmt_none)
         (enumerate1 (results (run_batch "" [video_a; video_b] second_first)))
     = ["   1. [100 просмотров] B"; "   2. [900 просмотров] A"]%string.
Proof.
  split; [apply perm_swap|]. vm_compute. repeat split; reflexivity.
Qed.

(** The successes follow the completion order; they follow the submitted
    list when the futures complete in the order of submission. *)
Lemma results_in_completion_order
    (start_hms : string) (videos : list video) (run : pool_run fetched) :
  results (run_batch start_hms videos run)
  = omap (success_entry videos run) (completion_order run).
Proof. apply run_batch_results. Qed.

(** The command-line tool lays the transcripts out in the order of the
    submitted list, whatever the completion order. *)
Lemma main_follows_input_order :
  main_output_parts [video_a; video_b]
    (download_transcripts [video_a; video_b] second_first_cli)
  = main_output_parts [video_a] {[ Video.id video_a := "text of A"%string ]}
    ++ main_output_parts [video_b] {[ Video.id video_b := "text of B"%string ]}.
Proof. vm_compute. reflexivity. Qed.

(** ** The single-video fetch: subtitle search and temporary files *)

Section FetchFacts.
Variable yt_dlp_base_cmd : list string.
Variable run_command : runner.
Variable elapsed : Q.
Variable fmt_1f : Q -> string.
Variable info_language : string -> string.

Lemma append_length (a b : string) :
  String.length (a +:+ b) = String.length a + String.length b.
Proof.
  induction a as [|c a IH]; [reflexivity|].
  change (S (String.length (a +:+ b)) = S (String.length a + String.length b)).
  now rewrite IH.
Qed.

(** A language-tagged path is never the untagged path. *)
Lemma tagged_not_untagged (temp lang : string) :
  temp +:+ "." +:+ lang +:+ ".vtt" <> temp +:+ ".vtt".
Proof.
  intros H. apply String.app_inj in H. apply (f_equal String.length) in H.
  change ("." +:+ lang +:+ ".vtt") with (String "." (lang +:+ ".vtt")) in H.
  cbn [String.length] in H. rewrite append_length in H.
  cbn [String.length] in H. lia.
Qed.

(** X14: the locator of [yt_transcripts.py] probes every tagged candidate
    before the untagged one: it returns the untagged path only when no
    tagged candidate exists. *)
Lemma cli_locate_untagged_last (temp lang : string) (fs : files) :
  locate temp (preferred_files lang) fs = Some (temp +:+ ".vtt") ->
  (Py.nonempty lang = true -> fs !! (temp +:+ "." +:+ lang +:+ ".vtt") = None)
  /\ fs !! (temp +:+ ".en.vtt") = None
  /\ fs !! (temp +:+ ".ru.vtt") = None.
Proof.
  unfold preferred_files.
  assert (Hstep : forall ext rest,
             ext <> ".vtt"%string ->
             locate temp (ext :: rest) fs = Some (temp +:+ ".vtt") ->
             fs !! (temp +:+ ext) = None
             /\ locate temp rest fs = Some (temp +:+ ".vtt")).
  { intros ext rest Hext. cbn [locate].
    destruct (bool_decide (is_Some (fs !! (temp +:+ ext)))) eqn:E.
    - intros [= H]. apply String.app_inj in H. contradiction.
    - intros H. split; [|exact H].
      apply bool_decide_eq_false in E. now apply eq_None_not_Some. }
  destruct (Py.nonempty lang) eqn:Hl; cbn [app]; intros H.
  - apply Hstep in H as [H0 H].
    2:{ intros E. apply (tagged_not_untagged "" lang). exact E. }
    apply Hstep in H as [H1 H]; [|discriminate].
    apply Hstep in H as [H2 H]; [|discriminate].
    auto.
  - apply Hstep in H as [H1 H]; [|discriminate].
    apply Hstep in H as [H2 H]; [|discriminate].
    split; [discriminate|auto].
Qed.

(** The search of [app.py] probes the untagged candidate before [.en.vtt]:
    without a [.ru.vtt] file, an untagged file with captions is returned
    whether or not an [.en.vtt] file exists. *)
Lemma app_untagged_before_en (temp content : string) (fs : files) :
  fs !! (temp +:+ ".ru.vtt") = None ->
  fs !! (temp +:+ ".vtt") = Some content ->
  Py.nonempty (clean_vtt_content content) = true ->
  (search_subs temp app_candidates fs).1
  = Some (temp +:+ ".vtt", clean_vtt_content content).
Proof.
  intros Hru Hun Hne.
  change app_candidates with [".ru.vtt"; ".vtt"; ".en.vtt"; ".vtt"]%string.
  cbn [search_subs]. now rewrite Hru, Hun, Hne.
Qed.



End FetchFacts.

Example app_candidates_order :
  app_candidates = [".ru.vtt"; ".vtt"; ".en.vtt"; ".vtt"]%string.
Proof. reflexivity. Qed.

Example cli_locate_example :
  locate (temp_file "abcdefghijk") (preferred_files "ru") en_and_untagged
  = Some "/tmp/yt_transcript_abcdefghijk.en.vtt"%string.
Proof. vm_compute. reflexivity. Qed.

(** C1 fails on [app.py]: the preferences are ["ru"], ["en"], and only the
    [.en.vtt] file and the untagged [.vtt] file exist.  The untagged
    candidate is probed right after [.ru.vtt], before [.en.vtt]: the search
    returns the untagged file, and the fetch returns its text and leaves the
    [.en.vtt] file behind. *)
Theorem app_search_takes_untagged :
  en_and_untagged !! "/tmp/yt_transcript_abcdefghijk.ru.vtt"%string = None
  /\ (search_subs (temp_file "abcdefghijk") app_candidates en_and_untagged).1
     = Some ("/tmp/yt_transcript_abcdefghijk.vtt", "untagged")%string
  /\ let '(r, fs', _) :=
       get_video_transcript [] (tool_writes en_and_untagged "" 0) 0 fmt_none
                            "abcdefghijk" "T" ∅ in
     f_kind r = Success
     /\ f_transcript r = "untagged"%string
     /\ fs' !! "/tmp/yt_transcript_abcdefghijk.en.vtt"%string = Some "english"%string.
Proof. vm_compute. repeat split; reflexivity. Qed.

(** C3 fails on [app.py]: the tool leaves a partial caption file and reports
    HTTP 429 on every run.  The fetch returns at the rate-limit test, before
    the clean-up, and the file of this video id is still there. *)
Theorem rate_limited_fetch_leaks :
  let '(r, fs', _) :=
    get_video_transcript [] (tool_writes part_file too_many_requests 1) 0
                         fmt_none "abcdefghijk" "T" ∅ in
  f_kind r = RateLimited
  /\ glob_match "abcdefghijk" "/tmp/yt_transcript_abcdefghijk.en.vtt.part" = true
  /\ fs' !! "/tmp/yt_transcript_abcdefghijk.en.vtt.part"%string = Some "WEBVTT"%string.
Proof. vm_compute. repeat split; reflexivity. Qed.

(** The success path of [yt_transcripts.py] leaks as well: the tool writes
    the captions of both requested languages, the fetch reads and removes
    the English file and leaves the Russian one. *)
Lemma cli_success_leaks :
  let '((_, transcript), fs') :=
    get_video_transcript_cli [] (tool_writes ru_and_en "" 0) (fun _ => "")
                             "abcdefghijk" "T" ∅ in
  transcript = "english"%string
  /\ glob_match "abcdefghijk" "/tmp/yt_transcript_abcdefghijk.ru.vtt" = true
  /\ fs' !! "/tmp/yt_transcript_abcdefghijk.ru.vtt"%string = Some "russian"%string.
Proof. vm_compute. repeat split; reflexivity. Qed.

(** * Further properties of the code *)

(** ** The caption cleaner: one line, no duplicates, no tags *)

Section CleanerMore.

Lemma contains_single_app (c : ascii) (a b : string) :
  Py.contains (String c EmptyString) (a +:+ b)
  = Py.contains (String c EmptyString) a || Py.contains (String c EmptyString) b.
Proof.
  induction a as [|d a IH].
  - reflexivity.
  - change (String d a +:+ b) with (String d (a +:+ b)).
    rewrite !contains_single_cons, IH. now rewrite orb_assoc.
Qed.

Lemma sub_tags_keeps_out (c : ascii) (s : string) :
  Py.contains (String c EmptyString) s = false ->
  Py.contains (String c EmptyString) (sub_tags s) = false
  /\ Py.contains (String c EmptyString) (skip_tag s) = false.
Proof.
  induction s as [|d s IH]; [now split|].
  rewrite contains_single_cons. intros H.
  apply orb_false_iff in H as [Hd Hs]. destruct (IH Hs) as [IH1 IH2].
  cbn [sub_tags skip_tag]. split.
  - destruct (Ascii.eqb d "<" && tag_opens s); [exact IH2|].
    rewrite contains_single_cons, Hd. exact IH1.
  - now destruct (Ascii.eqb d ">").
Qed.

Lemma sub_ts_go_keeps_out (c : ascii) (k : nat) (s : string) :
  Py.contains (String c EmptyString) s = false ->
  Py.contains (String c EmptyString) (sub_ts_go k s) = false.
Proof.
  revert k. induction s as [|d s IH]; intros k; [now destruct k|].
  rewrite contains_single_cons. intros H.
  apply orb_false_iff in H as [Hd Hs]. cbn [sub_ts_go].
  destruct k as [|k]; [|now apply IH].
  destruct (matches_at ts_pattern (String d s)); [now apply IH|].
  rewrite contains_single_cons, Hd. now apply IH.
Qed.

Lemma lstrip_by_keeps_out (c : ascii) (p : ascii -> bool) (s : string) :
  Py.contains (String c EmptyString) s = false ->
  Py.contains (String c EmptyString) (Py.lstrip_by p s) = false.
Proof.
  induction s as [|d s IH]; [easy|]. intros H. cbn [Py.lstrip_by].
  destruct (p d); [|exact H].
  rewrite contains_single_cons in H. apply orb_false_iff in H as [_ Hs].
  now apply IH.
Qed.

Lemma rstrip_by_keeps_out (c : ascii) (p : ascii -> bool) (s : string) :
  Py.contains (String c EmptyString) s = false ->
  Py.contains (String c EmptyString) (Py.rstrip_by p s) = false.
Proof.
  induction s as [|d s IH]; [easy|].
  rewrite contains_single_cons. intros H.
  apply orb_false_iff in H as [Hd Hs]. specialize (IH Hs).
  cbn [Py.rstrip_by]. destruct (Py.rstrip_by p s) as [|e r].
  - destruct (p d); [reflexivity|]. now rewrite contains_single_cons, Hd.
  - now rewrite contains_single_cons, Hd.
Qed.

Lemma clean_line_keeps_out (c : ascii) (line : string) :
  Py.contains (String c EmptyString) line = false ->
  Py.contains (String c EmptyString) (clean_line line) = false.
Proof.
  intros H. unfold clean_line, Py.strip, Py.rstrip, Py.lstrip, sub_ts.
  apply rstrip_by_keeps_out, lstrip_by_keeps_out, sub_ts_go_keeps_out.
  now apply sub_tags_keeps_out.
Qed.

Lemma join_keeps_out (c : ascii) (sep : string) (parts : list string) :
  Py.contains (String c EmptyString) sep = false ->
  Forall (fun w => Py.contains (String c EmptyString) w = false) parts ->
  Py.contains (String c EmptyString) (Py.join sep parts) = false.
Proof.
  intros Hsep. induction 1 as [|w ws Hw Hws IH]; [reflexivity|].
  cbn [Py.join]. destruct ws as [|w' ws]; [exact Hw|].
  rewrite !contains_single_app, Hw, Hsep. exact IH.
Qed.

(** The loop keeps its two accumulators in step: [seen] is the set of the
    kept lines, no kept line occurs twice, and the kept lines are the
    cleaned texts of the lines that are not skipped, empty ones apart. *)
Lemma clean_loop_invariant (lines : list string) (seen : gset string)
    (text_lines : list string) :
  (forall x, x ∈ seen <-> In x text_lines) ->
  NoDup text_lines ->
  NoDup (clean_loop lines seen text_lines)
  /\ forall x,
      In x (clean_loop lines seen text_lines)
      <-> In x text_lines
          \/ exists line, In line lines /\ skipped line = false
                          /\ clean_line line = x /\ Py.nonempty x = true.
Proof.
  revert seen text_lines.
  induction lines as [|line rest IH]; intros seen acc Hseen Hnd.
  - cbn. split; [exact Hnd|]. intros x. split; [now left|].
    intros [H|(l & [] & _)]. exact H.
  - cbn [clean_loop]. destruct (skipped line) eqn:Hsk.
    + destruct (IH seen acc Hseen Hnd) as [H1 H2]. split; [exact H1|].
      intros x. rewrite H2. split.
      * intros [H|(l & Hl & Hr)]; [now left|].
        right. exists l. split; [now right|exact Hr].
      * intros [H|(l & [<-|Hl] & Hs & Hr)]; [now left|congruence|].
        right. now exists l.
    + destruct (Py.nonempty (clean_line line)) eqn:Hne; cbn [andb].
      * destruct (bool_decide (clean_line line ∈ seen)) eqn:Hin; cbn [negb].
        -- apply bool_decide_eq_true in Hin. apply Hseen in Hin.
           destruct (IH seen acc Hseen Hnd) as [H1 H2]. split; [exact H1|].
           intros x. rewrite H2. split.
           ++ intros [H|(l & Hl & Hr)]; [now left|].
              right. exists l. split; [now right|exact Hr].
           ++ intros [H|(l & [<-|Hl] & Hs & <- & Hr)]; [now left|now left|].
              right. now exists l.
        -- apply bool_decide_eq_false in Hin.
           assert (Hnew : ~ In (clean_line line) acc)
             by (intros H; apply Hin, Hseen, H).
           destruct (IH ({[clean_line line]} ∪ seen) (acc ++ [clean_line line]))
             as [H1 H2].
           { intros x. rewrite elem_of_union, elem_of_singleton, Hseen,
               in_app_iff. cbn. intuition congruence. }
           { apply NoDup_app. repeat split; [exact Hnd| |apply NoDup_singleton].
             intros x Hx%list_elem_of_In Hx'%list_elem_of_In.
             destruct Hx' as [<-|[]]. contradiction. }
           split; [exact H1|]. intros x. rewrite H2, in_app_iff. cbn. split.
           ++ intros [[H|[<-|[]]]|(l & Hl & Hr)].
              ** now left.
              ** right. exists line. repeat split; auto.
              ** right. exists l. split; [now right|exact Hr].
           ++ intros [H|(l & [<-|Hl] & Hs & <- & Hr)].
              ** left. now left.
              ** left. right. now left.
              ** right. now exists l.
      * destruct (IH seen acc Hseen Hnd) as [H1 H2]. split; [exact H1|].
        intros x. rewrite H2. split.
        -- intros [H|(l & Hl & Hr)]; [now left|].
           right. exists l. split; [now right|exact Hr].
        -- intros [H|(l & [<-|Hl] & Hs & <- & Hr)]; [now left|congruence|].
           right. now exists l.
Qed.

Lemma tag_opens_no_gt (s : string) :
  Py.contains ">" s = false -> tag_opens s = false.
Proof.
  destruct s as [|c s]; [reflexivity|].
  rewrite contains_single_cons. intros H.
  apply orb_false_iff in H as [_ Hs]. cbn. rewrite Hs. apply andb_false_r.
Qed.

Lemma sub_tags_complete (s : string) :
  has_tag (sub_tags s) = false /\ has_tag (skip_tag s) = false.
Proof.
  induction s as [|c s [IH1 IH2]]; [now split|].
  cbn [sub_tags skip_tag]. split; [|now destruct (Ascii.eqb c ">")].
  destruct (Ascii.eqb c "<" && tag_opens s) eqn:Hopen; [exact IH2|].
  cbn [has_tag]. rewrite IH1, orb_false_r.
  destruct (Ascii.eqb c "<"); [|reflexivity]. cbn in Hopen |- *.
  destruct s as [|d s]; [reflexivity|].
  cbn [tag_opens] in Hopen. cbn [sub_tags].
  destruct (Ascii.eqb d ">") eqn:Hd.
  - assert (Hlt : Ascii.eqb d "<" = false).
    { apply Ascii.eqb_eq in Hd. now subst. }
    rewrite Hlt. cbn. now rewrite Hd.
  - cbn in Hopen. apply tag_opens_no_gt.
    assert (Hall : Py.contains ">" (String d s) = false).
    { rewrite contains_single_cons, Ascii.eqb_sym, Hd. exact Hopen. }
    pose proof (proj1 (sub_tags_keeps_out ">" (String d s) Hall)) as H.
    exact H.
Qed.

End CleanerMore.

Section CleanerTags.

Lemma has_tag_tail (c : ascii) (s : string) :
  has_tag (String c s) = false -> has_tag s = false.
Proof. cbn [has_tag]. intros H. now apply orb_false_iff in H. Qed.

Lemma lstrip_by_tag_free (p : ascii -> bool) (s : string) :
  has_tag s = false -> has_tag (Py.lstrip_by p s) = false.
Proof.
  induction s as [|c s IH]; [easy|]. intros H. cbn [Py.lstrip_by].
  destruct (p c); [|exact H]. apply IH. now apply has_tag_tail in H.
Qed.

Lemma tag_opens_rstrip (p : ascii -> bool) (s : string) :
  tag_opens s = false -> tag_opens (Py.rstrip_by p s) = false.
Proof.
  destruct s as [|c s]; [easy|]. cbn [tag_opens Py.rstrip_by]. intros H.
  destruct (Py.rstrip_by p s) as [|e r] eqn:Hr.
  - destruct (p c); [reflexivity|]. cbn. apply andb_false_r.
  - cbn [tag_opens]. apply andb_false_iff in H as [H|H]; [now rewrite H|].
    rewrite <- Hr, (rstrip_by_keeps_out ">" p s H). apply andb_false_r.
Qed.

Lemma rstrip_by_tag_free (p : ascii -> bool) (s : string) :
  has_tag s = false -> has_tag (Py.rstrip_by p s) = false.
Proof.
  induction s as [|c s IH]; [easy|]. cbn [has_tag]. intros H.
  apply orb_false_iff in H as [Hc Hs]. specialize (IH Hs).
  pose proof (tag_opens_rstrip p s) as Ho.
  cbn [Py.rstrip_by]. destruct (Py.rstrip_by p s) as [|e r].
  - destruct (p c); [reflexivity|]. cbn. now rewrite andb_false_r.
  - cbn [has_tag] in IH |- *. rewrite IH, orb_false_r.
    destruct (Ascii.eqb c "<"); [|reflexivity]. cbn in Hc |- *. now apply Ho.
Qed.

End CleanerTags.

(** X1: whatever the input, the text returned by the cleaner holds no
    newline character: the transcript is a single line. *)
Theorem clean_output_one_line (vtt_content : string) :
  Py.contains (String NL EmptyString) (clean_vtt_content vtt_content) = false.
Proof.
  unfold clean_vtt_content. apply join_keeps_out; [reflexivity|].
  apply Forall_forall. intros x Hx%list_elem_of_In.
  destruct (clean_loop_invariant (Py.split NL vtt_content) ∅ []) as [_ H].
  - intros y. split; [intros Hy; now apply not_elem_of_empty in Hy|intros []].
  - constructor.
  - apply H in Hx as [[]|(line & Hline & _ & <- & _)].
    apply clean_line_keeps_out. now apply (split_pieces NL vtt_content).
Qed.

(** X2: the lines that the cleaner joins are exactly the non-empty cleaned
    texts of the input lines it does not skip, and no text is kept twice:
    a cue repeated over several timing windows appears once. *)
Theorem clean_keeps_each_text_once (vtt_content : string) :
  let kept := clean_loop (Py.split NL vtt_content) ∅ [] in
  clean_vtt_content vtt_content = Py.join " " kept
  /\ NoDup kept
  /\ forall x,
      In x kept
      <-> exists line,
            In line (Py.split NL vtt_content) /\ skipped line = false
            /\ clean_line line = x /\ Py.nonempty x = true.
Proof.
  intros kept. split; [reflexivity|].
  destruct (clean_loop_invariant (Py.split NL vtt_content) ∅ []) as [H1 H2].
  - intros y. split; [intros Hy; now apply not_elem_of_empty in Hy|intros []].
  - constructor.
  - split; [exact H1|]. intros x. unfold kept. rewrite H2.
    split; [intros [[]|H]; exact H|intros H; now right].
Qed.

(** X3: one pass of the tag pattern leaves no tag behind, so a second pass
    changes nothing, the time-code pattern that runs after it never finds
    anything to remove, and every cleaned line is free of tags. *)
Theorem tag_removal_complete (line : string) :
  has_tag (sub_tags line) = false
  /\ sub_tags (sub_tags line) = sub_tags line
  /\ sub_ts (sub_tags line) = sub_tags line
  /\ has_tag (clean_line line) = false.
Proof.
  pose proof (proj1 (sub_tags_complete line)) as H.
  repeat split.
  - exact H.
  - now apply sub_tags_tag_free.
  - now apply sub_ts_tag_free.
  - unfold clean_line, Py.strip, Py.rstrip, Py.lstrip.
    rewrite (sub_ts_tag_free _ H).
    now apply rstrip_by_tag_free, lstrip_by_tag_free.
Qed.

(** ** The single-video fetch: what it returns, reports and touches *)

Lemma prefix_app (a b : string) : String.prefix a (a +:+ b) = true.
Proof.
  induction a as [|c a IH]; [now destruct b|].
  change (String c a +:+ b) with (String c (a +:+ b)). cbn [String.prefix].
  destruct (ascii_dec c c); [exact IH|contradiction].
Qed.





Lemma cli_locate_untagged_last_witness :
  locate (temp_file "abcdefghijk") (preferred_files "ru") untagged_only
  = Some (temp_file "abcdefghijk" +:+ ".vtt")
  /\ untagged_only !! (temp_file "abcdefghijk" +:+ ".en.vtt") = None.
Proof.
  assert (H : locate (temp_file "abcdefghijk") (preferred_files "ru")
                     untagged_only
              = Some (temp_file "abcdefghijk" +:+ ".vtt"))
    by (vm_compute; reflexivity).
  split; [exact H|].
  exact (proj1 (proj2 (cli_locate_untagged_last
                         (temp_file "abcdefghijk") "ru" untagged_only H))).
Defined.



Lemma add_langs_cases (lang : string) :
  add_langs [lang; "en"; "ru"]%string []
  = if Py.nonempty lang
    then if decide (lang = "en"%string) then ["en"; "ru"]%string
         else if decide (lang = "ru"%string) then ["ru"; "en"]%string
              else [lang; "en"; "ru"]%string
    else ["en"; "ru"]%string.
Proof.
  destruct (Py.nonempty lang) eqn:Hl.
  - destruct (decide (lang = "en"%string)) as [->|Hen]; [reflexivity|].
    destruct (decide (lang = "ru"%string)) as [->|Hru]; [reflexivity|].
    cbn [add_langs]. rewrite Hl.
    rewrite (bool_decide_eq_false_2 (lang ∈ [])) by apply not_elem_of_nil.
    cbn [andb negb app Py.nonempty].
    rewrite (bool_decide_eq_false_2 ("en"%string ∈ [lang]))
      by (rewrite list_elem_of_singleton; congruence).
    cbn [andb negb app].
    rewrite (bool_decide_eq_false_2 ("ru"%string ∈ [lang; "en"%string])).
    + reflexivity.
    + rewrite !elem_of_cons, elem_of_nil. intuition congruence.
  - apply nonempty_false in Hl. subst lang. reflexivity.
Qed.

(** X7: the languages tried by the download loop, built from the detected
    language and the fallbacks ["en"] and ["ru"]: no language occurs twice,
    none is empty, both fallbacks are always present, there are at most
    three, and a detected language comes first. *)
Theorem preferred_langs_shape (lang : string) :
  let preferred_langs := add_langs [lang; "en"; "ru"]%string [] in
  NoDup preferred_langs
  /\ In "en"%string preferred_langs /\ In "ru"%string preferred_langs
  /\ ~ In EmptyString preferred_langs
  /\ length preferred_langs <= 3
  /\ (Py.nonempty lang = true -> hd EmptyString preferred_langs = lang).
Proof.
  cbv zeta. rewrite add_langs_cases.
  destruct (Py.nonempty lang) eqn:Hl;
    [destruct (decide (lang = "en"%string)) as [->|Hen];
     [|destruct (decide (lang = "ru"%string)) as [->|Hru]]|];
    rewrite ?NoDup_cons, ?elem_of_cons, ?elem_of_nil; cbn [In length hd];
    repeat split; try lia; try discriminate; try apply NoDup_nil_2;
    try (intuition (try congruence; discriminate)).
  intros [H|[H|[H|[]]]]; try discriminate. subst lang. discriminate.
Qed.







(** X12: the locator of [yt_transcripts.py] returns the first candidate
    that exists: the path it returns exists and no candidate before it
    does; it returns nothing exactly when no candidate exists. *)
Theorem locate_first_existing (temp : string) (exts : list string)
    (fs : files) :
  match locate temp exts fs with
  | Some path =>
      exists before ext after,
        exts = before ++ ext :: after /\ path = temp +:+ ext
        /\ is_Some (fs !! path)
        /\ Forall (fun e => fs !! (temp +:+ e) = None) before
  | None => Forall (fun e => fs !! (temp +:+ e) = None) exts
  end.
Proof.
  induction exts as [|ext rest IH]; [constructor|].
  cbn [locate].
  destruct (bool_decide (is_Some (fs !! (temp +:+ ext)))) eqn:E.
  - apply bool_decide_eq_true in E. exists [], ext, rest. now repeat split.
  - apply bool_decide_eq_false in E. apply eq_None_not_Some in E.
    destruct (locate temp rest fs) as [path|].
    + destruct IH as (before & e & after & -> & -> & Hex & Hbefore).
      exists (ext :: before), e, after. repeat split; auto.
    + now constructor.
Qed.

(** ** The catalog lister: well-formed lines, sorting and the url *)

Lemma listing_line_fields (id title dur views : string) :
  Py.contains "|" id = false -> Py.contains "|" title = false ->
  Py.contains "|" dur = false -> Py.contains "|" views = false ->
  Py.split "|" (listing_line id title dur views) = [id; title; dur; views].
Proof.
  intros Hid Ht Hdur Hviews. unfold listing_line.
  rewrite !sep_cons, !split_app_sep.
  rewrite (split_no_sep "|" id Hid), (split_no_sep "|" title Ht),
    (split_no_sep "|" dur Hdur), (split_no_sep "|" views Hviews).
  reflexivity.
Qed.

(** X13: a line printed for an id, a title, a duration and a view count
    that hold no ['|'] is read back field by field: the descriptor has this
    id and title, the numbers that [float] and [int] read (the record is
    dropped when one of them refuses its field), and the watch url of the
    id.  The sentinel [NA] is read as 0 in both numeric columns. *)
Theorem listing_line_round_trip
    (py_float : string -> option Q) (py_int : string -> option Z)
    (id title dur views : string) :
  Py.contains "|" id = false -> Py.contains "|" title = false ->
  Py.contains "|" dur = false -> Py.contains "|" views = false ->
  parse_line py_float py_int (listing_line id title dur views)
  = match field_or_zero 0%Q py_float dur, field_or_zero 0%Z py_int views with
    | Some d, Some n => Some (Video.mk id title d n (watch_url id))
    | _, _ => None
    end
  /\ parse_line py_float py_int (listing_line id title "NA" "NA")
     = Some (Video.mk id title 0 0 (watch_url id)).
Proof.
  intros Hid Ht Hdur Hviews. split.
  - apply (parse_line_parts py_float py_int _ id title dur views []).
    now apply listing_line_fields.
  - apply (parse_line_parts py_float py_int _ id title "NA" "NA" []).
    now apply listing_line_fields.
Qed.

Lemma listing_line_round_trip_witness :
  (Py.contains "|" "abcdefghijk" = false /\ Py.contains "|" "A title" = false
   /\ Py.contains "|" "213" = false /\ Py.contains "|" "1000" = false)
  /\ parse_line dec_float dec_int
       (listing_line "abcdefghijk" "A title" "213" "1000")
     = Some (Video.mk "abcdefghijk" "A title" 213 1000
                      (watch_url "abcdefghijk")).
Proof.
  split; [repeat split; reflexivity|].
  exact (proj1 (listing_line_round_trip dec_float dec_int
                  "abcdefghijk" "A title" "213" "1000"
                  eq_refl eq_refl eq_refl eq_refl)).
Defined.

Section ListerMore.
Variable py_float : string -> option Q.
Variable py_int : string -> option Z.
Variable yt_dlp_base_cmd : list string.
Variable run_command : runner.

Lemma get_channel_videos_unfold (url : string) (limit : Z) (sort_by : string)
    (fs : files) :
  get_channel_videos py_float py_int yt_dlp_base_cmd run_command
                     url limit sort_by fs
  = let '((stdout, stderr, code), _) :=
      run_command (listing_cmd yt_dlp_base_cmd (videos_url url sort_by) limit)
                  60%Z fs in
    if negb (code =? 0)%Z then []
    else if String.eqb sort_by "views"
         then sort_desc Z.ltb Video.views
                (parse_listing py_float py_int stdout)
         else parse_listing py_float py_int stdout.
Proof. reflexivity. Qed.

Lemma get_channel_videos_cli_unfold (url : string) (limit : Z) (fs : files) :
  get_channel_videos_cli py_float py_int yt_dlp_base_cmd run_command
                         url limit fs
  = let '((stdout, stderr, code), _) :=
      run_command (listing_cmd yt_dlp_base_cmd (videos_url_cli url) (limit * 2))
                  120%Z fs in
    if negb (code =? 0)%Z then [] else parse_listing py_float py_int stdout.
Proof. reflexivity. Qed.

End ListerMore.

(** X15: the lister of [app.py] returns nothing when the tool exits with a
    code other than 0, whatever it printed.  Otherwise it returns the
    parsed records of the output: in the order of the output when the sort
    key is not ["views"], and for ["views"] the same records sorted by
    views, highest first, records with equal views in output order. *)
Theorem channel_videos_listing
    (py_float : string -> option Q) (py_int : string -> option Z)
    (base : list string) (run_command : runner)
    (url : string) (limit : Z) (sort_by : string) (fs : files) :
  let out :=
    (run_command (listing_cmd base (videos_url url sort_by) limit) 60%Z fs).1 in
  let videos :=
    get_channel_videos py_float py_int base run_command url limit sort_by fs in
  (out.2 <> 0%Z -> videos = [])
  /\ (out.2 = 0%Z ->
      Permutation videos (parse_listing py_float py_int out.1.1)
      /\ (sort_by <> "views"%string ->
          videos = parse_listing py_float py_int out.1.1)
      /\ (sort_by = "views"%string ->
          StronglySorted (fun x y => (Video.views y <= Video.views x)%Z) videos
          /\ forall k,
              List.filter (fun v => (Video.views v =? k)%Z) videos
              = List.filter (fun v => (Video.views v =? k)%Z)
                            (parse_listing py_float py_int out.1.1))).
Proof.
  cbv zeta. rewrite get_channel_videos_unfold.
  destruct (run_command _ 60%Z fs) as [[[stdout stderr] code] fs1].
  cbn [fst snd]. split.
  - intros Hc. apply Z.eqb_neq in Hc. now rewrite Hc.
  - intros ->. cbn [Z.eqb negb]. repeat split.
    + destruct (String.eqb sort_by "views"); [apply sort_desc_perm|reflexivity].
    + intros Hs. apply String.eqb_neq in Hs. now rewrite Hs.
    + subst sort_by. apply sorted_by_views.
    + subst sort_by. intros k. apply stable_by_views.
Qed.

Section UrlFacts.

Lemma append_nil_r (s : string) : s +:+ EmptyString = s.
Proof.
  induction s as [|c s IH]; [reflexivity|].
  change (String c (s +:+ EmptyString) = String c s). now rewrite IH.
Qed.




Lemma prefix_inv (p s : string) :
  String.prefix p s = true -> exists r, s = p +:+ r.
Proof.
  revert s. induction p as [|c p IH]; intros s H; [now exists s|].
  destruct s as [|d s]; [discriminate|]. cbn [String.prefix] in H.
  destruct (ascii_dec c d) as [->|]; [|discriminate].
  destruct (IH s H) as [r ->]. now exists r.
Qed.



End UrlFacts.


(** ** The catalog filter, once more *)

Section FilterMore.

Lemma sort_desc_sorted_id {A K : Type} (ltb : K -> K -> bool) (key : A -> K)
    (l : list A) :
  StronglySorted (desc ltb key) l -> sort_desc ltb key l = l.
Proof.
  induction 1 as [|x l Hl IH Hx]; [reflexivity|].
  cbn [sort_desc fold_right]. fold (sort_desc ltb key l). rewrite IH.
  destruct l as [|y r]; [reflexivity|].
  cbn [insert_desc]. inversion Hx as [|? ? Hxy _]; subst.
  unfold desc in Hxy. now rewrite Hxy.
Qed.

Lemma filter_all {A : Type} (p : A -> bool) (l : list A) :
  (forall x, In x l -> p x = true) -> List.filter p l = l.
Proof.
  induction l as [|x l IH]; intros H; [reflexivity|].
  cbn [List.filter]. rewrite (H x (or_introl eq_refl)), IH; [reflexivity|].
  intros y Hy. apply H. now right.
Qed.

End FilterMore.

(** X17: filtering is idempotent: applying the filter with the same
    thresholds and sort key to its own result changes nothing. *)
Theorem filter_videos_idempotent (videos : list video) (a b c : option Z)
    (sort_by : string) :
  filter_videos (filter_videos videos a b c sort_by) a b c sort_by
  = filter_videos videos a b c sort_by.
Proof.
  rewrite (filter_videos_eq (filter_videos videos a b c sort_by)). cbv zeta.
  rewrite (filter_all (within a b c)).
  2:{ intros v Hv.
      apply (Permutation_in _ (filter_videos_perm videos a b c sort_by)) in Hv.
      now apply filter_In in Hv. }
  rewrite filter_videos_eq. cbv zeta.
  destruct (String.eqb sort_by "views").
  - apply sort_desc_sorted_id, (sort_desc_sorted _ _ Zltb_asym Zgeb_trans).
  - destruct (String.eqb sort_by "duration"); [|reflexivity].
    apply sort_desc_sorted_id, (sort_desc_sorted _ _ Qltb_asym Qgeb_trans).
Qed.

(** ** [format_duration] *)

Section DurationFacts.




End DurationFacts.


Example format_duration_examples :
  format_duration 125 = "2:05"%string
  /\ format_duration (7323 # 2) = "61:01"%string
  /\ format_duration 0 = "0:00"%string.
Proof. vm_compute. repeat split; reflexivity. Qed.

(** ** URL recognition *)

Section UrlSearch.

Lemma all_chars_prefix (p : ascii -> bool) (pat s : string) :
  all_chars p s = true -> String.prefix pat s = true -> all_chars p pat = true.
Proof.
  revert s. induction pat as [|c pat IH]; intros s Hs Hp; [reflexivity|].
  destruct s as [|d s]; [discriminate|]. cbn [String.prefix] in Hp.
  destruct (ascii_dec c d) as [->|]; [|discriminate].
  cbn [all_chars] in Hs |- *. apply andb_true_iff in Hs as [Hd Hs].
  rewrite Hd. now apply (IH s).
Qed.

(** A text made of one class of characters holds no pattern that has a
    character outside the class. *)
Lemma contains_outside_class (p : ascii -> bool) (pat s : string) :
  all_chars p pat = false -> all_chars p s = true -> Py.contains pat s = false.
Proof.
  intros Hpat. induction s as [|c s IH]; intros Hs.
  - cbn [Py.contains]. rewrite orb_false_r.
    destruct (String.prefix pat EmptyString) eqn:E; [|reflexivity].
    rewrite (all_chars_prefix p pat EmptyString Hs E) in Hpat. discriminate.
  - cbn [Py.contains].
    destruct (String.prefix pat (String c s)) eqn:E.
    + rewrite (all_chars_prefix p pat _ Hs E) in Hpat. discriminate.
    + cbn [all_chars] in Hs. apply andb_true_iff in Hs as [_ Hs]. now apply IH.
Qed.

Lemma search_handle_outside_class (s : string) :
  all_chars is_id_char s = true -> search_handle s = None.
Proof.
  assert (Hat : forall t, all_chars is_id_char t = true -> handle_at t = None).
  { intros t Ht. unfold handle_at, Py.startswith.
    destruct (String.prefix "youtube.com/@" t) eqn:E; [|reflexivity].
    pose proof (all_chars_prefix is_id_char _ t Ht E) as H.
    vm_compute in H. discriminate. }
  induction s as [|c s IH]; intros Hs.
  - cbn [search_handle]. now rewrite (Hat EmptyString Hs).
  - cbn [search_handle]. rewrite (Hat _ Hs).
    cbn [all_chars] in Hs. apply andb_true_iff in Hs as [_ Hs]. now apply IH.
Qed.

Lemma contains_skip (needle : string) (c : ascii) (a b : string) :
  String.prefix needle (String c a +:+ b) = false ->
  Py.contains needle (String c a +:+ b) = Py.contains needle (a +:+ b).
Proof.
  intros H. change (String c a +:+ b) with (String c (a +:+ b)) in *.
  cbn [Py.contains]. now rewrite H.
Qed.

Lemma search_handle_skip (c : ascii) (a b : string) :
  handle_at (String c a +:+ b) = None ->
  search_handle (String c a +:+ b) = search_handle (a +:+ b).
Proof.
  intros H. change (String c a +:+ b) with (String c (a +:+ b)) in *.
  cbn [search_handle]. now rewrite H.
Qed.

Lemma search_video_id_skip (c : ascii) (a b : string) :
  video_id_at (String c a +:+ b) = None ->
  search_video_id (String c a +:+ b) = search_video_id (a +:+ b).
Proof.
  intros H. change (String c a +:+ b) with (String c (a +:+ b)) in *.
  cbn [search_video_id]. now rewrite H.
Qed.

Lemma substring_all (n : nat) (s : string) :
  String.length s <= n -> String.substring 0 n s = s.
Proof.
  revert n. induction s as [|c s IH]; intros n H.
  - now destruct n.
  - destruct n as [|n]; [cbn in H; lia|].
    cbn [String.substring]. rewrite IH; [reflexivity|cbn in H; lia].
Qed.

Lemma take_app (a b : string) : Py.take (String.length a) (a +:+ b) = a.
Proof.
  unfold Py.take. induction a as [|c a IH].
  - now destruct b.
  - change (String c a +:+ b) with (String c (a +:+ b)).
    cbn [String.length String.substring]. now rewrite IH.
Qed.

Lemma video_id_at_sound (s group : string) :
  video_id_at s = Some group ->
  String.length group = 11 /\ all_chars is_id_char group = true.
Proof.
  unfold video_id_at.
  destruct (if Py.startswith s "v=" then Some (str_drop 2 s)
            else if Py.startswith s "youtu.be/" then Some (str_drop 9 s)
                 else None) as [rest|]; [|discriminate].
  destruct ((String.length (Py.take 11 rest) =? 11)
            && all_chars is_id_char (Py.take 11 rest)) eqn:E; [|discriminate].
  intros [= <-]. apply andb_true_iff in E as [E1 E2].
  now apply Nat.eqb_eq in E1.
Qed.

Lemma search_video_id_sound (url group : string) :
  search_video_id url = Some group ->
  String.length group = 11 /\ all_chars is_id_char group = true.
Proof.
  induction url as [|c url IH]; cbn [search_video_id].
  - destruct (video_id_at EmptyString) as [g|] eqn:E; [|discriminate].
    intros [= <-]. now apply (video_id_at_sound EmptyString).
  - destruct (video_id_at (String c url)) as [g|] eqn:E; [|exact IH].
    intros [= <-]. now apply (video_id_at_sound (String c url)).
Qed.

Lemma search_video_id_here (s group : string) :
  video_id_at s = Some group -> search_video_id s = Some group.
Proof. intros H. destruct s; cbn [search_video_id]; now rewrite H. Qed.

Lemma video_id_at_v (id tail : string) :
  String.length id = 11 -> all_chars is_id_char id = true ->
  video_id_at ("v=" +:+ id +:+ tail) = Some id.
Proof.
  intros Hlen Hid. unfold video_id_at, Py.startswith.
  rewrite (prefix_app "v=" (id +:+ tail)).
  assert (Hdrop : str_drop 2 ("v=" +:+ id +:+ tail) = id +:+ tail).
  { unfold str_drop.
    change ("v=" +:+ id +:+ tail) with (String "v" (String "=" (id +:+ tail))).
    cbn [String.length String.substring]. apply substring_all. lia. }
  rewrite Hdrop.
  assert (Htake : Py.take 11 (id +:+ tail) = id).
  { rewrite <- Hlen. apply take_app. }
  now rewrite Htake, Hlen, Hid.
Qed.

Lemma id_char_not_space (c : ascii) :
  is_id_char c = true -> Py.isspace c = false.
Proof.
  destruct c as [[] [] [] [] [] [] [] []]; vm_compute; congruence.
Qed.

Lemma rstrip_by_class (p q : ascii -> bool) (s : string) :
  (forall c, q c = true -> p c = false) ->
  all_chars q s = true -> Py.rstrip_by p s = s.
Proof.
  intros Hpq. induction s as [|c s IH]; [reflexivity|].
  cbn [all_chars]. intros H. apply andb_true_iff in H as [Hc Hs].
  cbn [Py.rstrip_by]. rewrite (IH Hs).
  destruct s; [now rewrite (Hpq c Hc)|reflexivity].
Qed.

Lemma rstrip_by_app (p : ascii -> bool) (a b : string) :
  Py.nonempty b = true -> Py.rstrip_by p b = b ->
  Py.rstrip_by p (a +:+ b) = a +:+ b.
Proof.
  intros Hne Hb. induction a as [|c a IH]; [exact Hb|].
  change (String c a +:+ b) with (String c (a +:+ b)).
  cbn [Py.rstrip_by]. rewrite IH.
  destruct (a +:+ b) eqn:E; [|reflexivity].
  destruct a; [|discriminate E]. change b with (EmptyString +:+ b) in Hne.
  rewrite E in Hne. discriminate.
Qed.

Lemma watch_url_stripped (id : string) :
  String.length id = 11 -> all_chars is_id_char id = true ->
  Py.strip (watch_url id) = watch_url id.
Proof.
  intros Hlen Hid. unfold Py.strip.
  change (Py.lstrip (watch_url id)) with (watch_url id).
  unfold Py.rstrip, watch_url. apply rstrip_by_app.
  - destruct id; [discriminate Hlen|reflexivity].
  - apply (rstrip_by_class _ is_id_char); [apply id_char_not_space|exact Hid].
Qed.

Lemma watch_url_not_channel (id : string) :
  all_chars is_id_char id = true -> is_channel_url (watch_url id) = false.
Proof.
  intros Hid. unfold is_channel_url, watch_url.
  assert (H1 : search_handle ("https://www.youtube.com/watch?v=" +:+ id) = None).
  { repeat (rewrite search_handle_skip by reflexivity).
    change (EmptyString +:+ id) with id.
    now apply search_handle_outside_class. }
  rewrite H1.
  repeat (rewrite contains_skip by reflexivity).
  change (EmptyString +:+ id) with id.
  rewrite !(contains_outside_class is_id_char _ id)
    by first [exact Hid|reflexivity].
  rewrite bool_decide_eq_false_2; [reflexivity|apply is_Some_None].
Qed.

Lemma watch_url_video_id (id : string) :
  String.length id = 11 -> all_chars is_id_char id = true ->
  search_video_id (watch_url id) = Some id.
Proof.
  intros Hlen Hid. unfold watch_url.
  do 30 (rewrite search_video_id_skip by reflexivity).
  apply search_video_id_here.
  pose proof (video_id_at_v id EmptyString Hlen Hid) as H.
  now rewrite append_nil_r in H.
Qed.

Lemma short_url_video_id (id : string) :
  String.length id = 11 -> all_chars is_id_char id = true ->
  search_video_id ("https://youtu.be/" +:+ id) = Some id.
Proof.
  intros Hlen Hid.
  do 8 (rewrite search_video_id_skip by reflexivity).
  apply search_video_id_here.
  assert (Hat : video_id_at ("youtu.be/" +:+ id) = Some id).
  { unfold video_id_at, Py.startswith.
    change (String.prefix "v=" ("youtu.be/" +:+ id)) with false.
    rewrite (prefix_app "youtu.be/" id).
    assert (Hdrop : str_drop 9 ("youtu.be/" +:+ id) = id).
    { unfold str_drop.
      change ("youtu.be/" +:+ id)
        with (String "y" (String "o" (String "u" (String "t" (String "u"
               (String "." (String "b" (String "e" (String "/" id))))))))).
      cbn [String.length String.substring]. apply substring_all. lia. }
    rewrite Hdrop.
    assert (Htake : Py.take 11 id = id).
    { unfold Py.take. apply substring_all. lia. }
    now rewrite Htake, Hlen, Hid. }
  exact Hat.
Qed.

End UrlSearch.

(** X19: the video id pattern.  Whatever the url, a match is a token of
    exactly 11 characters among letters, digits, [_] and [-].  For such a
    token, the watch url built from it and the short [youtu.be] url give the
    token back, and the single-video branch of [main] makes one descriptor
    with this id. *)
Theorem video_id_round_trip (id : string) :
  String.length id = 11 -> all_chars is_id_char id = true ->
  search_video_id (watch_url id) = Some id
  /\ search_video_id ("https://youtu.be/" +:+ id) = Some id
  /\ main_single (watch_url id)
     = Some [Video.mk id "Single Video" 0 0 (watch_url id)]
  /\ (forall url group,
         search_video_id url = Some group ->
         String.length group = 11 /\ all_chars is_id_char group = true).
Proof.
  intros Hlen Hid. repeat split.
  - now apply watch_url_video_id.
  - now apply short_url_video_id.
  - unfold main_single. now rewrite (watch_url_video_id id Hlen Hid).
  - now apply (search_video_id_sound url).
  - now apply (search_video_id_sound url).
Qed.

Lemma video_id_round_trip_witness :
  (String.length "dQw4w9WgXcQ" = 11
   /\ all_chars is_id_char "dQw4w9WgXcQ" = true)
  /\ search_video_id "https://www.youtube.com/watch?v=dQw4w9WgXcQ"
     = Some "dQw4w9WgXcQ"%string.
Proof.
  split; [split; reflexivity|].
  exact (proj1 (video_id_round_trip "dQw4w9WgXcQ" eq_refl eq_refl)).
Defined.

(** X20: the route [/api/get_videos] answers a watch url of a well-formed
    video id with a single descriptor that carries this id and the url, and
    it does not take the url for a channel; a url that is empty or white
    space only is refused. *)
Theorem single_video_request
    (py_float : string -> option Q) (py_int : string -> option Z)
    (base : list string) (run_command : runner)
    (id sort_by : string) (fs : files) :
  String.length id = 11 -> all_chars is_id_char id = true ->
  is_channel_url (watch_url id) = false
  /\ api_get_videos py_float py_int base run_command (watch_url id) sort_by fs
     = VideosFound true (mk_channel "Single Video" "")
                   [Video.mk id "Видео" 0 0 (watch_url id)]
  /\ (forall url,
         Py.strip url = EmptyString ->
         api_get_videos py_float py_int base run_command url sort_by fs
         = VideosError "URL не указан").
Proof.
  intros Hlen Hid. repeat split.
  - now apply watch_url_not_channel.
  - unfold api_get_videos. cbv zeta.
    rewrite (watch_url_stripped id Hlen Hid).
    rewrite (watch_url_not_channel id Hid), (watch_url_video_id id Hlen Hid).
    now destruct id.
  - intros url Hu. unfold api_get_videos. cbv zeta. now rewrite Hu.
Qed.

Lemma single_video_request_witness :
  (String.length "dQw4w9WgXcQ" = 11
   /\ all_chars is_id_char "dQw4w9WgXcQ" = true)
  /\ api_get_videos dec_float dec_int [] tool_idle
       "https://www.youtube.com/watch?v=dQw4w9WgXcQ" "views" ∅
     = VideosFound true (mk_channel "Single Video" "")
         [Video.mk "dQw4w9WgXcQ" "Видео" 0 0
                   "https://www.youtube.com/watch?v=dQw4w9WgXcQ"].
Proof.
  split; [split; reflexivity|].
  exact (proj1 (proj2 (single_video_request dec_float dec_int [] tool_idle
                         "dQw4w9WgXcQ" "views" ∅ eq_refl eq_refl))).
Defined.

(** ** The version check *)

(** X21: the route [/api/check_version] compares the version text with
    ["2026.2.4"] character by character.  A version that starts with
    ["2026.0"] or ["2026.1"], such as ["2026.02.04"] or ["2026.10.01"], is
    reported as outdated; the minimum itself, with or without further
    text, is not; and when the tool prints nothing there is no warning. *)
Theorem version_check_by_characters
    (base : list string) (run_command : runner) (fs : files) :
  let version :=
    Py.strip (run_command (base ++ ["--version"%string]) 10%Z fs).1.1.1 in
  let answer := api_check_version base run_command fs in
  (Py.startswith version "2026.0" = true \/ Py.startswith version "2026.1" = true ->
   exists message, answer = VersionWarning version "2026.2.4" message)
  /\ (Py.startswith version "2026.2.4" = true -> answer = VersionCurrent version)
  /\ (version = EmptyString -> answer = VersionCurrent EmptyString).
Proof.
  cbv zeta. unfold api_check_version.
  destruct (run_command _ 10%Z fs) as [[[stdout stderr] code] fs1].
  cbn [fst]. set (version := Py.strip stdout). repeat split.
  - intros [H|H]; apply prefix_inv in H as [rest Hr]; rewrite Hr;
      eexists; reflexivity.
  - intros H. apply prefix_inv in H as [rest Hr]. rewrite Hr.
    now destruct rest.
  - intros ->. reflexivity.
Qed.

Example version_examples :
  api_check_version [] (tool_prints "2026.02.04") ∅
  = VersionWarning "2026.02.04" "2026.2.4"
      "yt-dlp 2026.02.04 is outdated. Please update: pip install -U yt-dlp"
  /\ api_check_version [] (tool_prints "2026.10.01") ∅
     = VersionWarning "2026.10.01" "2026.2.4"
         "yt-dlp 2026.10.01 is outdated. Please update: pip install -U yt-dlp"
  /\ api_check_version [] (tool_prints "2025.12.08") ∅
     = VersionWarning "2025.12.08" "2026.2.4"
         "yt-dlp 2025.12.08 is outdated. Please update: pip install -U yt-dlp"
  /\ api_check_version [] (tool_prints "2026.3.1") ∅
     = VersionCurrent "2026.3.1".
Proof. vm_compute. repeat split; reflexivity. Qed.

(** ** [get_channel_info] *)

Section ChannelInfo.

Lemma lstrip_by_head (p : ascii -> bool) (s : string) (c : ascii) (r : string) :
  Py.lstrip_by p s = String c r -> p c = false.
Proof.
  induction s as [|d s IH]; [discriminate|]. cbn [Py.lstrip_by].
  destruct (p d) eqn:E; [exact IH|]. now intros [= <- <-].
Qed.

Lemma rstrip_by_head (p : ascii -> bool) (s : string) (c : ascii) (r : string) :
  Py.rstrip_by p s = String c r -> exists r', s = String c r'.
Proof.
  destruct s as [|d s]; [discriminate|]. cbn [Py.rstrip_by].
  destruct (Py.rstrip_by p s).
  - destruct (p d); [discriminate|]. intros [= <- <-]. now exists s.
  - intros [= <- <-]. now exists s.
Qed.

Lemma strip_head (s : string) (c : ascii) (r : string) :
  Py.strip s = String c r -> Py.isspace c = false.
Proof.
  unfold Py.strip, Py.rstrip, Py.lstrip. intros H.
  apply rstrip_by_head in H as [r' H]. now apply lstrip_by_head in H.
Qed.

Lemma take_while_all (p : ascii -> bool) (s : string) :
  all_chars p (take_while p s) = true.
Proof.
  induction s as [|c s IH]; [reflexivity|]. cbn [take_while].
  destruct (p c) eqn:E; [|reflexivity]. cbn [all_chars]. now rewrite E.
Qed.

Lemma prefix_take_while (p : ascii -> bool) (s : string) :
  String.prefix (take_while p s) s = true.
Proof.
  induction s as [|c s IH]; [reflexivity|]. cbn [take_while].
  destruct (p c); [|reflexivity]. cbn [String.prefix].
  destruct (ascii_dec c c); [exact IH|contradiction].
Qed.

Lemma prefix_app_cancel (a g r : string) :
  String.prefix g r = true -> String.prefix (a +:+ g) (a +:+ r) = true.
Proof.
  intros H. induction a as [|c a IH]; [exact H|].
  change (String.prefix (String c (a +:+ g)) (String c (a +:+ r)) = true).
  cbn [String.prefix]. destruct (ascii_dec c c); [exact IH|contradiction].
Qed.

Lemma str_drop_app (a b : string) : str_drop (String.length a) (a +:+ b) = b.
Proof.
  unfold str_drop. generalize (String.length (a +:+ b)) (append_length a b).
  intros m Hm.
  assert (Hb : String.length b <= m) by lia. clear Hm.
  induction a as [|c a IH]; [now apply substring_all|].
  change (String c a +:+ b) with (String c (a +:+ b)).
  cbn [String.length String.substring]. exact IH.
Qed.

Lemma handle_at_sound (s group : string) :
  handle_at s = Some group ->
  Py.nonempty group = true /\ all_chars is_handle_char group = true
  /\ String.prefix ("youtube.com/@" +:+ group) s = true.
Proof.
  unfold handle_at, Py.startswith.
  destruct (String.prefix "youtube.com/@" s) eqn:E; [|discriminate].
  apply prefix_inv in E as [rest ->].
  pose proof (str_drop_app "youtube.com/@" rest) as Hd.
  cbn [String.length] in Hd. rewrite Hd.
  destruct (Py.nonempty (take_while is_handle_char rest)) eqn:Hne;
    [|discriminate].
  intros [= <-]. repeat split; [exact Hne|apply take_while_all|].
  apply prefix_app_cancel, prefix_take_while.
Qed.

Lemma contains_of_prefix (pat s : string) :
  String.prefix pat s = true -> Py.contains pat s = true.
Proof. intros H. destruct s; cbn [Py.contains]; now rewrite H. Qed.

Lemma search_handle_sound (url group : string) :
  search_handle url = Some group ->
  Py.nonempty group = true /\ all_chars is_handle_char group = true
  /\ Py.contains ("youtube.com/@" +:+ group) url = true.
Proof.
  induction url as [|c url IH]; cbn [search_handle].
  - destruct (handle_at EmptyString) as [g|] eqn:E; [|discriminate].
    intros [= <-]. destruct (handle_at_sound _ _ E) as (H1 & H2 & H3).
    split; [exact H1|]. split; [exact H2|]. now apply contains_of_prefix.
  - destruct (handle_at (String c url)) as [g|] eqn:E.
    + intros [= <-]. destruct (handle_at_sound _ _ E) as (H1 & H2 & H3).
      split; [exact H1|]. split; [exact H2|]. now apply contains_of_prefix.
    + intros H. destruct (IH H) as (H1 & H2 & H3).
      split; [exact H1|]. split; [exact H2|]. now apply contains_later.
Qed.

End ChannelInfo.

(** X22: [get_channel_info] never returns an empty channel name: the name
    is the first line of what the tool printed, without a newline and
    starting with a character that is not white space, or the text
    ["Unknown Channel"] when the tool printed nothing.  The handle is empty,
    or it is ['@'] followed by the non-empty run of word characters and
    hyphens that follows [youtube.com/@] in the url. *)
Theorem channel_info_shape
    (base : list string) (run_command : runner) (url : string) (fs : files) :
  let info := (get_channel_info base run_command url fs).1 in
  Py.nonempty (ch_name info) = true
  /\ Py.contains (String NL EmptyString) (ch_name info) = false
  /\ Py.lstrip (ch_name info) = ch_name info
  /\ (ch_handle info = EmptyString
      \/ exists group,
          ch_handle info = "@" +:+ group
          /\ Py.nonempty group = true
          /\ all_chars is_handle_char group = true
          /\ Py.contains ("youtube.com/@" +:+ group) url = true).
Proof.
  unfold get_channel_info. cbv zeta.
  destruct (run_command _ 30%Z fs) as [[[stdout stderr] code] fs1].
  cbn [fst ch_name ch_handle].
  assert (Hname :
    let name := if Py.nonempty (Py.strip stdout)
                then hd EmptyString (Py.split NL (Py.strip stdout))
                else "Unknown Channel"%string in
    Py.nonempty name = true
    /\ Py.contains (String NL EmptyString) name = false
    /\ Py.lstrip name = name).
  { cbv zeta. destruct (Py.strip stdout) as [|c r] eqn:Hs; [now repeat split|].
    cbn [Py.nonempty]. pose proof (strip_head stdout c r Hs) as Hc.
    assert (Hnl : Ascii.eqb c NL = false).
    { destruct (Ascii.eqb_spec c NL) as [->|]; [discriminate Hc|reflexivity]. }
    pose proof (split_pieces NL (String c r)) as Hp.
    cbn [Py.split] in Hp |- *. rewrite Hnl in Hp |- *.
    pose proof (split_nonempty NL r) as Hne.
    destruct (Py.split NL r) as [|w ws]; [contradiction|].
    cbn [hd]. repeat split.
    - apply Hp. now left.
    - unfold Py.lstrip. cbn [Py.lstrip_by]. now rewrite Hc. }
  destruct Hname as (H1 & H2 & H3). repeat split; auto.
  destruct (search_handle url) as [group|] eqn:Hh; [right|now left].
  exists group. split; [reflexivity|]. now apply search_handle_sound.
Qed.

Example channel_info_example :
  (get_channel_info [] (tool_prints ("Some Channel" +:+ String NL "x"))
                    "https://www.youtube.com/@Some-Name/videos" ∅).1
  = mk_channel "Some Channel" "@Some-Name"
  /\ (get_channel_info [] tool_idle "https://www.youtube.com/channel/UC123" ∅).1
     = mk_channel "Unknown Channel" "".
Proof. vm_compute. split; reflexivity. Qed.

(** ** The answers of the batch route *)

(** X23: the route of [app.py] answers "no videos" only for an empty
    submission; it answers "no transcripts" exactly when videos were
    submitted and no fetch returned a transcript that is not empty; in the
    report at least one fetch did, and the count of successes lies between
    1 and the number of submitted videos. *)
Theorem batch_answer_kind
    (start_hms elapsed_total_1f now_stamp : string) (fmt_1f : Q -> string)
    (videos : list video) (info : channel_info) (run : pool_run fetched) :
  complete_run (length videos) run ->
  match api_get_transcripts start_hms elapsed_total_1f now_stamp fmt_1f
          videos info run with
  | NoVideos => videos = []
  | NoTranscripts _ _ =>
      videos <> []
      /\ forall i r, i < length videos -> outcome_of run i = Returned r ->
                     Py.nonempty (f_transcript r) = false
  | Report count total _ _ _ =>
      videos <> [] /\ 1 <= count <= total
      /\ exists i r, i < length videos /\ outcome_of run i = Returned r
                     /\ Py.nonempty (f_transcript r) = true
  end.
Proof.
  intros Hrun.
  destruct (complete_run_indices _ run Hrun) as (Hall & Hlen & Hin).
  unfold api_get_transcripts. destruct videos as [|v0 vs]; [reflexivity|].
  set (videos := v0 :: vs) in *.
  pose proof (run_batch_results start_hms videos run) as Hres.
  pose proof (outcomes_count videos run _ Hall) as Hcount.
  rewrite <- Hres, Hlen in Hcount.
  destruct (results (run_batch start_hms videos run)) as [|e es] eqn:E.
  - split; [discriminate|]. intros i r Hi Hret.
    destruct (Py.nonempty (f_transcript r)) eqn:Hne; [|reflexivity].
    apply lookup_lt_is_Some_2 in Hi as Hv. destruct Hv as [v Hv].
    assert (Hs : entry_of v (f_transcript r)
                 ∈ omap (success_entry videos run) (completion_order run)).
    { apply list_elem_of_omap. exists i. split.
      - apply list_elem_of_In, Hin, Hi.
      - unfold success_entry. now rewrite Hv, Hret, Hne. }
    rewrite <- Hres in Hs. now apply elem_of_nil in Hs.
  - split; [discriminate|]. split; [cbn [length] in *; lia|].
    assert (Hs : e ∈ omap (success_entry videos run) (completion_order run)).
    { rewrite <- Hres. now left. }
    apply list_elem_of_omap in Hs as (i & Hi & Hs).
    unfold success_entry in Hs.
    destruct (videos !! i) as [v|] eqn:Hv; [|discriminate].
    destruct (outcome_of run i) as [r|msg] eqn:Hret; [|discriminate].
    destruct (Py.nonempty (f_transcript r)) eqn:Hne; [|discriminate].
    exists i, r. split; [now apply lookup_lt_Some in Hv|]. now split.
Qed.

Lemma batch_answer_kind_witness :
  complete_run 2 second_raises
  /\ match api_get_transcripts "" "" "" fmt_none [video_a; video_b]
             (mk_channel "" "") second_raises with
     | NoVideos => [video_a; video_b] = []
     | NoTranscripts _ _ =>
         [video_a; video_b] <> []
         /\ forall i r, i < 2 -> outcome_of second_raises i = Returned r ->
                        Py.nonempty (f_transcript r) = false
     | Report count total _ _ _ =>
         [video_a; video_b] <> [] /\ 1 <= count <= total
         /\ exists i r, i < 2 /\ outcome_of second_raises i = Returned r
                        /\ Py.nonempty (f_transcript r) = true
     end.
Proof.
  assert (H : complete_run (length [video_a; video_b]) second_raises)
    by apply perm_swap.
  split; [exact H|].
  exact (batch_answer_kind "" "" "" fmt_none [video_a; video_b]
           (mk_channel "" "") second_raises H).
Defined.

(** ** The dictionary of [download_transcripts] and the layout of [main] *)

Section CliBatch.
Variable videos : list video.
Variable run : pool_run (string * string).

(** Every future returns the id of the video it was submitted for, as
    [get_video_transcript] does. *)
Hypothesis returns_own_id :
  forall i v video_id transcript,
    videos !! i = Some v ->
    outcome_of run i = Returned (video_id, transcript) ->
    video_id = Video.id v.

Hypothesis distinct_ids : NoDup (map Video.id videos).

Lemma distinct_ids_lookup (i j : nat) (vi vj : video) :
  videos !! i = Some vi -> videos !! j = Some vj ->
  Video.id vi = Video.id vj -> i = j.
Proof.
  intros Hi Hj Heq.
  assert (Hnd : NoDup (Video.id <$> videos)) by exact distinct_ids.
  apply (NoDup_lookup _ i j (Video.id vi) Hnd).
  - now rewrite list_lookup_fmap, Hi.
  - now rewrite list_lookup_fmap, Hj, Heq.
Qed.

Lemma cli_future_lookup (i j : nat) (vi vj : video)
    (acc : gmap string string) :
  videos !! i = Some vi -> videos !! j = Some vj ->
  cli_future acc (outcome_of run i) !! Video.id vj
  = if decide (i = j)
    then match cli_kept run j with
         | Some t => Some t
         | None => acc !! Video.id vj
         end
    else acc !! Video.id vj.
Proof.
  intros Hi Hj. unfold cli_future, cli_kept.
  destruct (decide (i = j)) as [->|Hne].
  - assert (vi = vj) by congruence. subst vj.
    destruct (outcome_of run j) as [[video_id transcript]|msg] eqn:Ho;
      [|reflexivity].
    destruct (Py.nonempty transcript); [|reflexivity].
    rewrite (returns_own_id j vi video_id transcript Hi Ho).
    apply lookup_insert_eq.
  - destruct (outcome_of run i) as [[video_id transcript]|msg] eqn:Ho;
      [|reflexivity].
    destruct (Py.nonempty transcript); [|reflexivity].
    rewrite (returns_own_id i vi video_id transcript Hi Ho).
    apply lookup_insert_ne. intros Heq. apply Hne.
    now apply (distinct_ids_lookup i j vi vj).
Qed.

Lemma download_loop_cli_lookup (order : list nat) (acc : gmap string string)
    (j : nat) (vj : video) :
  NoDup order -> videos !! j = Some vj ->
  download_loop_cli videos run order acc !! Video.id vj
  = if bool_decide (j ∈ order)
    then match cli_kept run j with
         | Some t => Some t
         | None => acc !! Video.id vj
         end
    else acc !! Video.id vj.
Proof.
  intros Hnd Hj. revert acc.
  induction order as [|i order IH]; intros acc; [reflexivity|].
  apply NoDup_cons in Hnd as [Hi Hnd]. specialize (IH Hnd).
  cbn [download_loop_cli].
  destruct (videos !! i) as [vi|] eqn:Hvi.
  - rewrite IH, (cli_future_lookup i j vi vj acc Hvi Hj).
    destruct (decide (i = j)) as [->|Hne].
    + rewrite (bool_decide_eq_false_2 (j ∈ order)) by exact Hi.
      rewrite (bool_decide_eq_true_2 (j ∈ j :: order)) by now left.
      reflexivity.
    + destruct (bool_decide (j ∈ order)) eqn:E.
      * apply bool_decide_eq_true in E.
        rewrite (bool_decide_eq_true_2 (j ∈ i :: order)) by now right.
        reflexivity.
      * apply bool_decide_eq_false in E.
        rewrite (bool_decide_eq_false_2 (j ∈ i :: order)); [reflexivity|].
        rewrite elem_of_cons. intros [->|H]; [now apply Hne|now apply E].
  - rewrite IH.
    assert (Hne : i <> j) by (intros ->; congruence).
    destruct (bool_decide (j ∈ order)) eqn:E.
    + apply bool_decide_eq_true in E.
      rewrite (bool_decide_eq_true_2 (j ∈ i :: order)) by now right.
      reflexivity.
    + apply bool_decide_eq_false in E.
      rewrite (bool_decide_eq_false_2 (j ∈ i :: order)); [reflexivity|].
      rewrite elem_of_cons. intros [->|H]; [now apply Hne|now apply E].
Qed.

Lemma download_transcripts_lookup (j : nat) (vj : video) :
  complete_run (length videos) run -> videos !! j = Some vj ->
  download_transcripts videos run !! Video.id vj = cli_kept run j.
Proof.
  intros Hrun Hj. unfold download_transcripts.
  rewrite (download_loop_cli_lookup _ ∅ j vj); [|
    unfold complete_run in Hrun; rewrite Hrun; apply NoDup_seq | exact Hj].
  destruct (complete_run_indices _ run Hrun) as (_ & _ & Hin).
  rewrite bool_decide_eq_true_2.
  - rewrite lookup_empty. now destruct (cli_kept run j).
  - apply list_elem_of_In, Hin. now apply lookup_lt_Some in Hj.
Qed.

End CliBatch.

Lemma flat_map_ext_in {A B : Type} (f g : A -> list B) (l : list A) :
  (forall x, In x l -> f x = g x) -> flat_map f l = flat_map g l.
Proof.
  induction l as [|x l IH]; intros H; [reflexivity|].
  cbn [flat_map]. rewrite (H x (or_introl eq_refl)), IH; [reflexivity|].
  intros y Hy. apply H. now right.
Qed.

(** X24: in [yt_transcripts.py], when the submitted videos have distinct
    ids, the dictionary built by [download_transcripts] holds under the id
    of each video exactly the non-empty transcript its own fetch returned,
    and nothing when the fetch raised or returned an empty text: the order
    in which the fetches complete plays no part. *)
Theorem cli_transcripts_by_id
    (videos : list video) (run : pool_run (string * string))
    (j : nat) (vj : video) :
  (forall i v video_id transcript,
      videos !! i = Some v ->
      outcome_of run i = Returned (video_id, transcript) ->
      video_id = Video.id v) ->
  NoDup (map Video.id videos) ->
  complete_run (length videos) run ->
  videos !! j = Some vj ->
  download_transcripts videos run !! Video.id vj = cli_kept run j.
Proof.
  intros Hown Hnd Hrun Hj.
  now apply (download_transcripts_lookup videos run Hown Hnd j vj).
Qed.

Lemma second_first_cli_own_id :
  forall i v video_id transcript,
    [video_a; video_b] !! i = Some v ->
    outcome_of second_first_cli i = Returned (video_id, transcript) ->
    video_id = Video.id v.
Proof.
  intros [|[|i]] v video_id transcript Hv Ho; cbn in Hv;
    try discriminate; injection Hv as <-; cbn in Ho;
    injection Ho as <- _; reflexivity.
Qed.

Lemma two_videos_distinct : NoDup (map Video.id [video_a; video_b]).
Proof.
  cbn. rewrite !NoDup_cons, !elem_of_cons, !elem_of_nil.
  repeat split; [intuition discriminate|intuition|apply NoDup_nil_2].
Qed.

Lemma cli_transcripts_by_id_witness :
  complete_run 2 second_first_cli
  /\ download_transcripts [video_a; video_b] second_first_cli
     !! Video.id video_a = Some "text of A"%string.
Proof.
  assert (H : complete_run (length [video_a; video_b]) second_first_cli)
    by apply perm_swap.
  split; [exact H|].
  exact (cli_transcripts_by_id [video_a; video_b] second_first_cli 0 video_a
           second_first_cli_own_id two_videos_distinct H eq_refl).
Defined.

(** X25: in [yt_transcripts.py], for videos with distinct ids, the sections
    that [main] writes are the same for any two runs of the pool in which
    the fetches yield the same results: the output follows the submitted
    list and does not depend on the completion order. *)
Theorem cli_output_order_independent
    (videos : list video) (run1 run2 : pool_run (string * string)) :
  (forall i v video_id transcript,
      videos !! i = Some v ->
      outcome_of run1 i = Returned (video_id, transcript) ->
      video_id = Video.id v) ->
  (forall i, outcome_of run2 i = outcome_of run1 i) ->
  NoDup (map Video.id videos) ->
  complete_run (length videos) run1 ->
  complete_run (length videos) run2 ->
  main_output_parts videos (download_transcripts videos run1)
  = main_output_parts videos (download_transcripts videos run2).
Proof.
  intros Hown Heq Hnd Hrun1 Hrun2. unfold main_output_parts.
  apply flat_map_ext_in. intros v Hv.
  apply list_elem_of_In, list_elem_of_lookup in Hv as [j Hj].
  assert (Hown2 : forall i v video_id transcript,
             videos !! i = Some v ->
             outcome_of run2 i = Returned (video_id, transcript) ->
             video_id = Video.id v).
  { intros i w video_id transcript Hw Ho. rewrite Heq in Ho.
    now apply (Hown i w video_id transcript). }
  rewrite (download_transcripts_lookup videos run1 Hown Hnd j v Hrun1 Hj).
  rewrite (download_transcripts_lookup videos run2 Hown2 Hnd j v Hrun2 Hj).
  unfold cli_kept. now rewrite Heq.
Qed.

Lemma cli_output_order_independent_witness :
  (complete_run 2 second_first_cli /\ complete_run 2 in_order_cli)
  /\ main_output_parts [video_a; video_b]
       (download_transcripts [video_a; video_b] second_first_cli)
     = main_output_parts [video_a; video_b]
         (download_transcripts [video_a; video_b] in_order_cli).
Proof.
  assert (H1 : complete_run (length [video_a; video_b]) second_first_cli)
    by apply perm_swap.
  assert (H2 : complete_run (length [video_a; video_b]) in_order_cli)
    by apply Permutation_refl.
  split; [split; [exact H1|exact H2]|].
  exact (cli_output_order_independent [video_a; video_b]
           second_first_cli in_order_cli
           second_first_cli_own_id (fun _ => eq_refl) two_videos_distinct
           H1 H2).
Defined.

(** ** The selection of [main] *)

Lemma slice_to_prefix {A : Type} (n : Z) (l : list A) :
  exists rest, l = slice_to n l ++ rest.
Proof.
  unfold slice_to. destruct (0 <=? n)%Z.
  - exists (skipn (Z.to_nat n) l). symmetry. apply firstn_skipn.
  - exists (skipn (length l - Z.to_nat (- n)) l). symmetry. apply firstn_skipn.
Qed.

(** X26: when the channel branch of [main] goes on to the download, the
    selected videos are a non-empty initial part of the filtered and sorted
    list, at most [--top] of them for a [--top] that is not negative, and
    each of them was listed for the channel and passes the threshold tests.
    With [--top 0] nothing is selected and [main] exits. *)
Theorem main_select_spec
    (py_float : string -> option Q) (py_int : string -> option Z)
    (base : list string) (run_command : runner)
    (url : string) (top : Z) (a b c : option Z) (sort : string) (fs : files) :
  let listed :=
    get_channel_videos_cli py_float py_int base run_command url (top * 3) fs in
  match main_select py_float py_int base run_command url top a b c sort fs with
  | Some selected =>
      selected <> []
      /\ (exists rest, filter_videos listed a b c sort = selected ++ rest)
      /\ ((0 <= top)%Z -> length selected <= Z.to_nat top)
      /\ forall v, In v selected -> In v listed /\ within a b c v = true
  | None => True
  end
  /\ (top = 0%Z ->
      main_select py_float py_int base run_command url top a b c sort fs = None).
Proof.
  cbv zeta. unfold main_select.
  set (listed := get_channel_videos_cli py_float py_int base run_command
                                        url (top * 3) fs).
  split.
  - destruct listed as [|v0 vs] eqn:El; [exact I|]. rewrite <- El.
    destruct (slice_to top (filter_videos listed a b c sort))
      as [|s0 ss] eqn:Es; [exact I|]. rewrite <- Es.
    destruct (slice_to_prefix top (filter_videos listed a b c sort))
      as [rest Hrest].
    repeat split.
    + rewrite Es. discriminate.
    + now exists rest.
    + intros Htop. unfold slice_to.
      rewrite (proj2 (Z.leb_le 0 top) Htop), length_firstn. lia.
    + assert (Hin : In v (filter_videos listed a b c sort)).
      { rewrite Hrest. apply in_app_iff. now left. }
      apply (Permutation_in _ (filter_videos_perm listed a b c sort)) in Hin.
      now apply filter_In in Hin.
    + assert (Hin : In v (filter_videos listed a b c sort)).
      { rewrite Hrest. apply in_app_iff. now left. }
      apply (Permutation_in _ (filter_videos_perm listed a b c sort)) in Hin.
      now apply filter_In in Hin.
  - intros ->. destruct listed; reflexivity.
Qed.
